(** * CreditBoost search scripts: a shallow embedding

    Two standalone Python scripts are modelled here:

    - [duckduckgo_search_scrape.py]: [duckduckgo_search], [scrape_page] and
      the [__main__] block that prompts for a query, searches and scrapes
      every returned page;
    - [daily_learn_notify.py]: [search_and_notify], which searches and fires
      a desktop notification.

    Everything the scripts reach outside their own text (the search
    provider, [requests], [BeautifulSoup], [notify-send], standard input and
    the builtin [repr]) is gathered in a record [Env].  Calls that talk to
    the outside world are logged in a trace of events, and their answer may
    depend on the history of the run so far.  Python's exceptions are an
    explicit [Raise] outcome threaded through a small state-and-error monad. *)

From Stdlib Require Import ZArith String Ascii List Lia DecimalString.
From stdpp Require Import base option list strings gmap.
Import ListNotations.

Local Open Scope string_scope.
Local Open Scope list_scope.

(** ** Python values used by the scripts *)

(** The newline character, written ["\n"] in the source. *)
Definition nl : string := String (ascii_of_nat 10) EmptyString.

(** [sep.join(parts)]. *)
Fixpoint join (sep : string) (parts : list string) : string :=
  match parts with
  | [] => ""
  | [p] => p
  | p :: rest => p +:+ sep +:+ join sep rest
  end.

(** [s[:n]] for a non-negative [n]: the first [n] characters of [s], or all
    of [s] when it is shorter. *)
Fixpoint slice_to (n : nat) (s : string) : string :=
  match n, s with
  | O, _ => ""
  | S _, EmptyString => ""
  | S n', String c s' => String c (slice_to n' s')
  end.

(** [str(n)] for a non-negative integer, as an f-string field renders
    [len(urls)]. *)
Definition str_of_nat (n : nat) : string :=
  NilEmpty.string_of_uint (Nat.to_uint n).

(** A result dictionary of the search provider: string keys, string values. *)
Abbreviation dict := (gmap string string).

(** ** Exceptions

    Instances of Python's [Exception] class, which is what the libraries
    called by the scripts raise and what [except Exception] catches.
    [exn_msg] is what [str(e)] gives.  [KeyboardInterrupt] and [SystemExit],
    which are raised outside that class, are not in [exn]; module [Full]
    below adds them for [scrape_page]. *)

Inductive exn_class : Type :=
| ConnectionError
| Timeout
| HTTPError
| KeyError
| EOFError
| FileNotFoundError
| OtherException (name : string).

Record exn : Type := MkExn { exn_cls : exn_class; exn_msg : string }.

Inductive result (A : Type) : Type :=
| Ret (a : A)
| Raise (e : exn).
Arguments Ret {A} a.
Arguments Raise {A} e.

(** [d[key]]: the value, or [KeyError(key)], whose [str] is the [repr] of
    the key. *)
Definition getitem (key : string) (d : dict) : result string :=
  match d !! key with
  | Some v => Ret v
  | None => Raise (MkExn KeyError ("'" +:+ key +:+ "'"))
  end.

(** ** Events and the monad of the scripts *)

Inductive event : Type :=
| EPrint (line : string)                          (* print(line) *)
| EInput (prompt : string)                        (* input(prompt) *)
| EDdgsText (query : string) (max_results : Z)    (* DDGS().text(query, max_results=..) *)
| ESearch (query : string) (max_results : Z)      (* search(query, max_results=..) *)
| ERequestsGet (url : string) (timeout : Z)       (* requests.get(url, timeout=..) *)
| ESubprocessRun (argv : list string).            (* subprocess.run(argv) *)

Abbreviation trace := (list event).

(** A computation reads the history, extends it, and returns or raises. *)
Definition M (A : Type) : Type := trace -> result A * trace.

Definition ret {A} (a : A) : M A := fun tr => (Ret a, tr).

Definition bind {A B} (m : M A) (k : A -> M B) : M B :=
  fun tr =>
    match m tr with
    | (Ret a, tr') => k a tr'
    | (Raise e, tr') => (Raise e, tr')
    end.

(** A pure library call that may raise. *)
Definition lift {A} (r : result A) : M A := fun tr => (r, tr).

(** A call to the outside world: the event is logged, the answer is the
    world's, given the history before the call. *)
Definition call {A} (ev : event) (answer : trace -> result A) : M A :=
  fun tr => (answer tr, tr ++ [ev]).

(** [try: body except Exception as e: handler e]. *)
Definition try_except {A} (body : M A) (handler : exn -> M A) : M A :=
  fun tr =>
    match body tr with
    | (Ret a, tr') => (Ret a, tr')
    | (Raise e, tr') => handler e tr'
    end.

Declare Scope py_scope.
Delimit Scope py_scope with py.
Notation "x <- m ;; k" := (bind m (fun x => k))
  (at level 100, m at next level, right associativity) : py_scope.
Notation "m ;;; k" := (bind m (fun _ => k))
  (at level 100, right associativity) : py_scope.
Local Open Scope py_scope.

Definition print (line : string) : M unit :=
  call (EPrint line) (fun _ => Ret tt).

(** [[f(x) for x in xs]] where [f] may raise: left to right, the first
    exception ends the comprehension. *)
Fixpoint comprehension {A B} (f : A -> result B) (xs : list A) : result (list B) :=
  match xs with
  | [] => Ret []
  | x :: rest =>
      match f x with
      | Raise e => Raise e
      | Ret y =>
          match comprehension f rest with
          | Raise e => Raise e
          | Ret ys => Ret (y :: ys)
          end
      end
  end.

(** [for x in xs: body x]. *)
Fixpoint for_each {A} (xs : list A) (body : A -> M unit) : M unit :=
  match xs with
  | [] => ret tt
  | x :: rest => body x ;;; for_each rest body
  end.

(** ** The environment of the scripts *)

Record Response : Type := MkResponse { status_code : Z; text : string }.

Record Env : Type := MkEnv {
  Soup : Type;
  Tag : Type;
  (* builtins *)
  repr : string -> string;
  input : trace -> string -> result string;
  (* duckduckgo_search *)
  ddgs_text : trace -> string -> Z -> result (list dict);
  search : trace -> string -> Z -> result (list dict);
  (* requests *)
  requests_get : trace -> string -> Z -> result Response;
  raise_for_status : Response -> result unit;
  (* bs4 *)
  BeautifulSoup : string -> string -> result Soup;
  find_all : Soup -> string -> result (list Tag);
  get_text : Tag -> result string;
  (* subprocess *)
  subprocess_run : trace -> list string -> result unit
}.

(** [repr] of a list of strings, as [print] and f-strings show [urls]. *)
Definition repr_list (E : Env) (l : list string) : string :=
  "[" +:+ join ", " (map (repr E) l) +:+ "]".

(** ** duckduckgo_search_scrape.py *)

Section Scrape.
Variable E : Env.

(** [DDGS()] followed by [.text(query, max_results=max_results)] is one
    call to the provider. *)
Definition duckduckgo_search (query : string) (max_results : Z) : M (list string) :=
  results <- call (EDdgsText query max_results)
                  (fun h => ddgs_text E h query max_results) ;;
  urls <- lift (comprehension (getitem "href") results) ;;
  ret urls.

(** The body of the [try] block of [scrape_page]. *)
Definition scrape_body (url : string) : M string :=
  res <- call (ERequestsGet url 5) (fun h => requests_get E h url 5) ;;
  lift (raise_for_status E res) ;;;
  soup <- lift (BeautifulSoup E (text res) "html.parser") ;;
  paragraphs <- lift (find_all E soup "p") ;;
  texts <- lift (comprehension (get_text E) paragraphs) ;;
  ret (slice_to 2000 (join nl texts)).

(** The line printed by the handler: [f"Failed to scrape {url}: {e}"]. *)
Definition failure_line (url : string) (e : exn) : string :=
  "Failed to scrape " +:+ url +:+ ": " +:+ exn_msg e.

Definition scrape_page (url : string) : M string :=
  try_except (scrape_body url)
    (fun e =>
       print (failure_line url e) ;;;
       ret "").

Definition header (url : string) : string :=
  nl +:+ "--- Content from " +:+ url +:+ " ---".

(** One iteration of the loop of the [__main__] block. *)
Definition loop_body (url : string) : M unit :=
  print (header url) ;;;
  content <- scrape_page url ;;
  print content.

Definition main : M unit :=
  query <- call (EInput "Enter search query: ")
                (fun h => input E h "Enter search query: ") ;;
  urls <- duckduckgo_search query 3 ;;
  print ("Found URLs: " +:+ repr_list E urls) ;;;
  for_each urls loop_body.
End Scrape.

(** ** daily_learn_notify.py *)

Section Notify.
Variable E : Env.

Definition notify_message (query : string) (urls : list string) : string :=
  "Search done for '" +:+ query +:+ "', found "
    +:+ str_of_nat (length urls) +:+ " results.".

Definition search_and_notify (query : string) : M unit :=
  print ("Running search for: " +:+ query) ;;;
  results <- call (ESearch query 3) (fun h => search E h query 3) ;;
  urls <- lift (comprehension (getitem "url") results) ;;
  print ("Found URLs: " +:+ repr_list E urls) ;;;
  call (ESubprocessRun ["notify-send"; "TinyLlama"; notify_message query urls])
       (fun h => subprocess_run E h
                   ["notify-send"; "TinyLlama"; notify_message query urls]).

(** The [__main__] block: the default query. *)
Definition notify_main : M unit := search_and_notify "latest tech news".
End Notify.

(** ** What one fetch can do

    [fetch_ok E h url texts]: with history [h], every step of the [try]
    block succeeds for [url] and the page's paragraphs have texts [texts].
    [fetch_fails E h url e]: some step of the [try] block raises [e]. *)

Inductive fetch_ok (E : Env) (h : trace) (url : string) (texts : list string) : Prop :=
| FetchOk (res : Response) (soup : Soup E) (paragraphs : list (Tag E)) :
    requests_get E h url 5 = Ret res ->
    raise_for_status E res = Ret tt ->
    BeautifulSoup E (text res) "html.parser" = Ret soup ->
    find_all E soup "p" = Ret paragraphs ->
    comprehension (get_text E) paragraphs = Ret texts ->
    fetch_ok E h url texts.

Inductive fetch_fails (E : Env) (h : trace) (url : string) (e : exn) : Prop :=
| FailGet :
    requests_get E h url 5 = Raise e ->
    fetch_fails E h url e
| FailStatus (res : Response) :
    requests_get E h url 5 = Ret res ->
    raise_for_status E res = Raise e ->
    fetch_fails E h url e
| FailParse (res : Response) :
    requests_get E h url 5 = Ret res ->
    raise_for_status E res = Ret tt ->
    BeautifulSoup E (text res) "html.parser" = Raise e ->
    fetch_fails E h url e
| FailFindAll (res : Response) (soup : Soup E) :
    requests_get E h url 5 = Ret res ->
    raise_for_status E res = Ret tt ->
    BeautifulSoup E (text res) "html.parser" = Ret soup ->
    find_all E soup "p" = Raise e ->
    fetch_fails E h url e
| FailGetText (res : Response) (soup : Soup E) (paragraphs : list (Tag E)) :
    requests_get E h url 5 = Ret res ->
    raise_for_status E res = Ret tt ->
    BeautifulSoup E (text res) "html.parser" = Ret soup ->
    find_all E soup "p" = Ret paragraphs ->
    comprehension (get_text E) paragraphs = Raise e ->
    fetch_fails E h url e.

(** ** What one iteration of the scrape loop leaves in the trace *)

Inductive outcome : Type :=
| Fetched (content : string)
| Failed (e : exn).

(** The PageContent of an iteration. *)
Definition content_of (o : outcome) : string :=
  match o with
  | Fetched content => content
  | Failed _ => ""
  end.

Definition entry_events (url : string) (o : outcome) : trace :=
  match o with
  | Fetched content =>
      [EPrint (header url); ERequestsGet url 5; EPrint content]
  | Failed e =>
      [EPrint (header url); ERequestsGet url 5;
       EPrint (failure_line url e); EPrint ""]
  end.

(** [outcome_at E h url o]: [o] is what the collaborators make of [url]
    when the fetch starts with history [h]. *)
Definition outcome_at (E : Env) (h : trace) (url : string) (o : outcome) : Prop :=
  match o with
  | Fetched content =>
      exists texts, fetch_ok E h url texts /\
                    content = slice_to 2000 (join nl texts)
  | Failed e => fetch_fails E h url e
  end.

(** The outcomes of a whole loop over [urls] started with history [h]: each
    fetch sees the events of the iterations before it. *)
Fixpoint outcomes_at (E : Env) (h : trace) (urls : list string)
    (os : list outcome) : Prop :=
  match urls, os with
  | [], [] => True
  | url :: urls', o :: os' =>
      outcome_at E (h ++ [EPrint (header url)]) url o /\
      outcomes_at E (h ++ entry_events url o) urls' os'
  | _, _ => False
  end.

(** The provider answers the same whatever happened before. *)
Definition deterministic_provider (E : Env) : Prop :=
  forall (h1 h2 : trace) (query : string) (max_results : Z),
    ddgs_text E h1 query max_results = ddgs_text E h2 query max_results.

(** A run that ends with an exception nobody caught. *)
Definition crashes {A} (m : M A) (tr : trace) : Prop :=
  exists e, fst (m tr) = Raise e.

(** The argument vector of the notification sent by [search_and_notify]. *)
Definition notify_argv (message : string) : list string :=
  ["notify-send"; "TinyLlama"; message].

(** ** The fixed lines of the two scripts *)

(** The prompt of [input] in the scrape script. *)
Definition prompt : string := "Enter search query: ".

(** [f"Found URLs: {urls}"], which [print("Found URLs:", urls)] prints too. *)
Definition found_line (E : Env) (urls : list string) : string :=
  "Found URLs: " +:+ repr_list E urls.

(** [f"Running search for: {query}"]. *)
Definition running_line (query : string) : string :=
  "Running search for: " +:+ query.

(** ** Reading a trace

    What a run asked of the outside world, by kind of call and in the order
    of the calls. *)

(** The [requests.get] calls: URL and timeout. *)
Definition requests_of (tr : trace) : list (string * Z) :=
  flat_map (fun ev => match ev with
                      | ERequestsGet url timeout => [(url, timeout)]
                      | _ => []
                      end) tr.

(** The [DDGS().text] calls: query and limit. *)
Definition ddgs_calls_of (tr : trace) : list (string * Z) :=
  flat_map (fun ev => match ev with
                      | EDdgsText query max_results => [(query, max_results)]
                      | _ => []
                      end) tr.

(** The [search] calls of the notifier: query and limit. *)
Definition search_calls_of (tr : trace) : list (string * Z) :=
  flat_map (fun ev => match ev with
                      | ESearch query max_results => [(query, max_results)]
                      | _ => []
                      end) tr.

(** The argument vectors given to [subprocess.run]. *)
Definition subprocesses_of (tr : trace) : list (list string) :=
  flat_map (fun ev => match ev with
                      | ESubprocessRun argv => [argv]
                      | _ => []
                      end) tr.

(** The prompts shown by [input]. *)
Definition inputs_of (tr : trace) : list string :=
  flat_map (fun ev => match ev with
                      | EInput shown => [shown]
                      | _ => []
                      end) tr.

(** ** The status check of [requests]

    [Response.raise_for_status()] raises [HTTPError] for a status from 400
    to 599 and returns for every other status.  An environment whose
    [raise_for_status] does so satisfies [raises_for_error_status]. *)

Definition error_status (res : Response) : bool :=
  ((400 <=? status_code res) && (status_code res <? 600))%Z.

Definition raises_for_error_status (E : Env) : Prop :=
  forall res : Response,
    if error_status res
    then exists msg, raise_for_status E res = Raise (MkExn HTTPError msg)
    else raise_for_status E res = Ret tt.

(** ** [scrape_page] under Python's whole exception hierarchy

    [except Exception] catches the instances of [Exception] and lets the
    other instances of [BaseException] through.  Here a step of
    [scrape_page] may raise either kind, and [print] may raise too. *)

Module Full.

Inductive py_raised : Type :=
| AnException (e : exn)        (* an instance of Exception *)
| KeyboardInterrupt
| SystemExit (code : Z)
| GeneratorExit.

(** [isinstance(x, Exception)]. *)
Definition isinstance_Exception (x : py_raised) : bool :=
  match x with
  | AnException _ => true
  | KeyboardInterrupt | SystemExit _ | GeneratorExit => false
  end.

Inductive outcome_of (A : Type) : Type :=
| Returns (a : A)
| Raises (x : py_raised).
Arguments Returns {A} a.
Arguments Raises {A} x.

Definition of_result {A} (r : result A) : outcome_of A :=
  match r with
  | Ret a => Returns a
  | Raise e => Raises (AnException e)
  end.

Definition MF (A : Type) : Type := trace -> outcome_of A * trace.

Definition ret {A} (a : A) : MF A := fun tr => (Returns a, tr).

Definition bind {A B} (m : MF A) (k : A -> MF B) : MF B :=
  fun tr =>
    match m tr with
    | (Returns a, tr') => k a tr'
    | (Raises x, tr') => (Raises x, tr')
    end.

Definition lift {A} (o : outcome_of A) : MF A := fun tr => (o, tr).

Definition call {A} (ev : event) (answer : trace -> outcome_of A) : MF A :=
  fun tr => (answer tr, tr ++ [ev]).

(** [try: body except Exception as e: handler e]: only an instance of
    [Exception] reaches the handler. *)
Definition try_except_Exception {A} (body : MF A) (handler : exn -> MF A) : MF A :=
  fun tr =>
    match body tr with
    | (Returns a, tr') => (Returns a, tr')
    | (Raises (AnException e), tr') => handler e tr'
    | (Raises x, tr') => (Raises x, tr')
    end.

Declare Scope full_scope.
Notation "x <- m ;; k" := (bind m (fun x => k))
  (at level 100, m at next level, right associativity) : full_scope.
Notation "m ;;; k" := (bind m (fun _ => k))
  (at level 100, right associativity) : full_scope.
Local Open Scope full_scope.

Fixpoint comprehension {A B} (f : A -> outcome_of B) (xs : list A)
    : outcome_of (list B) :=
  match xs with
  | [] => Returns []
  | x :: rest =>
      match f x with
      | Raises r => Raises r
      | Returns y =>
          match comprehension f rest with
          | Raises r => Raises r
          | Returns ys => Returns (y :: ys)
          end
      end
  end.

(** What [scrape_page] calls, each step free to raise anything. *)
Record World : Type := MkWorld {
  w_Soup : Type;
  w_Tag : Type;
  w_requests_get : trace -> string -> Z -> outcome_of Response;
  w_raise_for_status : Response -> outcome_of unit;
  w_BeautifulSoup : string -> string -> outcome_of w_Soup;
  w_find_all : w_Soup -> string -> outcome_of (list w_Tag);
  w_get_text : w_Tag -> outcome_of string;
  w_print : trace -> string -> outcome_of unit
}.

Definition print (W : World) (line : string) : MF unit :=
  call (EPrint line) (fun h => w_print W h line).

Definition scrape_body (W : World) (url : string) : MF string :=
  res <- call (ERequestsGet url 5) (fun h => w_requests_get W h url 5) ;;
  lift (w_raise_for_status W res) ;;;
  soup <- lift (w_BeautifulSoup W (text res) "html.parser") ;;
  paragraphs <- lift (w_find_all W soup "p") ;;
  texts <- lift (comprehension (w_get_text W) paragraphs) ;;
  ret (slice_to 2000 (join nl texts)).

Definition scrape_page (W : World) (url : string) : MF string :=
  try_except_Exception (scrape_body W url)
    (fun e =>
       print W (failure_line url e) ;;;
       ret "").

(** The world of an environment: every step raises instances of
    [Exception] only, and [print] succeeds. *)
Definition of_env (E : Env) : World :=
  {| w_Soup := Soup E;
     w_Tag := Tag E;
     w_requests_get := fun h url timeout => of_result (requests_get E h url timeout);
     w_raise_for_status := fun res => of_result (raise_for_status E res);
     w_BeautifulSoup := fun markup parser => of_result (BeautifulSoup E markup parser);
     w_find_all := fun soup name => of_result (find_all E soup name);
     w_get_text := fun tag => of_result (get_text E tag);
     w_print := fun _ _ => Returns tt |}.

(** [o] returns, or raises an instance of [Exception]. *)
Definition within_Exception {A} (o : outcome_of A) : Prop :=
  match o with
  | Returns _ => True
  | Raises x => isinstance_Exception x = true
  end.

(** Every fetch and parse step of the world returns or raises an instance
    of [Exception]. *)
Record raises_only_Exception (W : World) : Prop := MkOnly {
  only_get : forall h url timeout, within_Exception (w_requests_get W h url timeout);
  only_status : forall res, within_Exception (w_raise_for_status W res);
  only_soup : forall markup parser, within_Exception (w_BeautifulSoup W markup parser);
  only_find : forall soup name, within_Exception (w_find_all W soup name);
  only_text : forall tag, within_Exception (w_get_text W tag)
}.

(** [print] never raises. *)
Definition print_succeeds (W : World) : Prop :=
  forall h line, w_print W h line = Returns tt.

End Full.

(** ** A stub world

    Deterministic stand-ins for the collaborators, used to run the scripts
    on concrete inputs.  Pages are looked up by URL; a paragraph is the text
    between [<p>] and [</p>] and the stub parser knows the three pages
    below. *)

Module Stub.

Definition url_a : string := "https://a.example/".
Definition url_b : string := "https://b.example/".
Definition url_c : string := "https://c.example/".

Fixpoint repeat_string (n : nat) (s : string) : string :=
  match n with
  | O => ""
  | S n' => s +:+ repeat_string n' s
  end.

Definition long_text : string := repeat_string 2500 "x".

Definition page_a : string := "<html><p>alpha</p><p>beta</p></html>".
Definition page_c : string := "<html><p>" +:+ long_text +:+ "</p></html>".
Definition page_bare : string := "<html><h1>no paragraphs</h1></html>".

Definition parse (markup : string) : list string :=
  if String.eqb markup page_a then ["alpha"; "beta"]
  else if String.eqb markup page_c then [long_text]
  else [].

(** [raise_for_status] as [requests] has it: 4xx and 5xx raise. *)
Definition check_status (res : Response) : result unit :=
  if ((400 <=? status_code res) && (status_code res <? 600))%Z
  then Raise (MkExn HTTPError "404 Client Error: Not Found for url")
  else Ret tt.

Definition hit (url : string) : dict :=
  <["title" := "a result"]> (<["href" := url]> (<["url" := url]> ∅)).

Definition make_env
    (provider : string -> Z -> result (list dict))
    (fetch : string -> result Response) : Env :=
  {| Soup := list string;
     Tag := string;
     repr := fun s => "'" +:+ s +:+ "'";
     input := fun _ _ => Ret "latest tech news";
     ddgs_text := fun _ => provider;
     search := fun _ => provider;
     requests_get := fun _ url _ => fetch url;
     raise_for_status := check_status;
     BeautifulSoup := fun markup _ => Ret (parse markup);
     find_all := fun soup _ => Ret soup;
     get_text := fun tag => Ret tag;
     subprocess_run := fun _ _ => Ret tt |}.

Definition timed_out : exn := MkExn Timeout "Read timed out.".
Definition unreachable : exn := MkExn ConnectionError "provider unreachable".

Definition three_hits (query : string) (max_results : Z) : result (list dict) :=
  Ret [hit url_a; hit url_b; hit url_c].

Definition no_hits (query : string) (max_results : Z) : result (list dict) :=
  Ret [].

Definition provider_down (query : string) (max_results : Z) : result (list dict) :=
  Raise unreachable.

(** A result without the ['href'] and ['url'] keys. *)
Definition malformed (query : string) (max_results : Z) : result (list dict) :=
  Ret [hit url_a; <["title" := "no link"]> ∅].

(** [url_a] and [url_c] are served, [url_b] times out, anything else is a
    404. *)
Definition fetch_b_down (url : string) : result Response :=
  if String.eqb url url_a then Ret (MkResponse 200 page_a)
  else if String.eqb url url_b then Raise timed_out
  else if String.eqb url url_c then Ret (MkResponse 200 page_c)
  else Ret (MkResponse 404 "").

Definition fetch_bare (url : string) : result Response :=
  Ret (MkResponse 200 page_bare).

Definition env_b_down : Env := make_env three_hits fetch_b_down.
Definition env_empty : Env := make_env no_hits fetch_b_down.
Definition env_down : Env := make_env provider_down fetch_b_down.
Definition env_malformed : Env := make_env malformed fetch_b_down.
Definition env_bare : Env := make_env three_hits fetch_bare.

(** A provider whose answer depends on what happened before it is called. *)
Definition env_flaky : Env :=
  {| Soup := list string;
     Tag := string;
     repr := fun s => "'" +:+ s +:+ "'";
     input := fun _ _ => Ret "latest tech news";
     ddgs_text := fun h _ _ =>
       if Nat.even (length h) then Ret [hit url_a] else Ret [hit url_b];
     search := fun _ => three_hits;
     requests_get := fun _ url _ => fetch_b_down url;
     raise_for_status := check_status;
     BeautifulSoup := fun markup _ => Ret (parse markup);
     find_all := fun soup _ => Ret soup;
     get_text := fun tag => Ret tag;
     subprocess_run := fun _ _ => Ret tt |}.

(** A world with every collaborator chosen: standard input and the
    notification sink too. *)
Definition make_env_io
    (stdin : string -> result string)
    (sink : list string -> result unit)
    (provider : string -> Z -> result (list dict))
    (fetch : string -> result Response) : Env :=
  {| Soup := list string;
     Tag := string;
     repr := fun s => "'" +:+ s +:+ "'";
     input := fun _ => stdin;
     ddgs_text := fun _ => provider;
     search := fun _ => provider;
     requests_get := fun _ url _ => fetch url;
     raise_for_status := check_status;
     BeautifulSoup := fun markup _ => Ret (parse markup);
     find_all := fun soup _ => Ret soup;
     get_text := fun tag => Ret tag;
     subprocess_run := fun _ => sink |}.

Definition end_of_file : exn := MkExn EOFError "EOF when reading a line".
Definition no_notify_send : exn :=
  MkExn FileNotFoundError "[Errno 2] No such file or directory: 'notify-send'".

(** Standard input is closed. *)
Definition env_eof : Env :=
  make_env_io (fun _ => Raise end_of_file) (fun _ => Ret tt)
    three_hits fetch_b_down.

(** [notify-send] is not installed. *)
Definition env_no_sink : Env :=
  make_env_io (fun _ => Ret "latest tech news") (fun _ => Raise no_notify_send)
    three_hits fetch_b_down.

(** Every page answers 304 Not Modified with the markup of [page_a]. *)
Definition fetch_not_modified (url : string) : result Response :=
  Ret (MkResponse 304 page_a).

Definition env_not_modified : Env := make_env three_hits fetch_not_modified.

(** [url_a] answers 404. *)
Definition fetch_not_found (url : string) : result Response :=
  Ret (MkResponse 404 page_a).

Definition env_not_found : Env := make_env three_hits fetch_not_found.

(** The user presses Ctrl-C while a page is being fetched. *)
Definition world_interrupted : Full.World :=
  {| Full.w_Soup := list string;
     Full.w_Tag := string;
     Full.w_requests_get := fun _ _ _ => Full.Raises Full.KeyboardInterrupt;
     Full.w_raise_for_status := fun res => Full.of_result (check_status res);
     Full.w_BeautifulSoup := fun markup _ => Full.Returns (parse markup);
     Full.w_find_all := fun soup _ => Full.Returns soup;
     Full.w_get_text := fun tag => Full.Returns tag;
     Full.w_print := fun _ _ => Full.Returns tt |}.

End Stub.

(** * Properties *)

(** ** Strings *)

Lemma slice_to_length (n : nat) (s : string) :
  String.length (slice_to n s) <= n.
Proof.
  revert s. induction n as [|n IH]; intros [|c s]; simpl; try lia.
  specialize (IH s). lia.
Qed.

Lemma slice_to_short (n : nat) (s : string) :
  String.length s <= n -> slice_to n s = s.
Proof.
  revert s. induction n as [|n IH]; intros [|c s]; simpl; intros H;
    try reflexivity; try lia.
  f_equal. apply IH. lia.
Qed.

Lemma slice_to_prefix (n : nat) (s : string) :
  exists rest, s = slice_to n s +:+ rest.
Proof.
  revert s. induction n as [|n IH]; intros s.
  - exists s. reflexivity.
  - destruct s as [|c s]; simpl.
    + exists "". reflexivity.
    + destruct (IH s) as [rest Hrest]. exists rest.
      change (String c s = String c (slice_to n s +:+ rest)).
      f_equal. exact Hrest.
Qed.

(** ** Comprehensions *)

Lemma comprehension_length {A B} (f : A -> result B) (xs : list A) (ys : list B) :
  comprehension f xs = Ret ys -> length ys = length xs.
Proof.
  revert ys. induction xs as [|x xs IH]; simpl; intros ys H.
  - inversion H. reflexivity.
  - destruct (f x) as [y|e]; [|discriminate].
    destruct (comprehension f xs) as [ys'|e]; [|discriminate].
    inversion H; subst. simpl. f_equal. apply IH. reflexivity.
Qed.

Lemma comprehension_nil_inv {A B} (f : A -> result B) (xs : list A) :
  comprehension f xs = Ret [] -> xs = [].
Proof.
  intros H. apply comprehension_length in H. destruct xs; [reflexivity|discriminate].
Qed.

(** A result that lacks the key makes the whole comprehension raise
    [KeyError]. *)
Lemma comprehension_missing_key (key : string) (results : list dict) :
  (exists r, In r results /\ r !! key = None) ->
  comprehension (getitem key) results
  = Raise (MkExn KeyError ("'" +:+ key +:+ "'")).
Proof.
  induction results as [|r rs IH]; intros (r0 & Hin & Hnone).
  - destruct Hin.
  - simpl. unfold getitem at 1. destruct (r !! key) as [v|] eqn:Hr; [|reflexivity].
    destruct Hin as [->|Hin]; [congruence|].
    rewrite IH; [reflexivity|]. exists r0. split; assumption.
Qed.

(** ** The monad *)

Lemma for_each_app {A} (xs ys : list A) (body : A -> M unit) (tr : trace) :
  for_each (xs ++ ys) body tr
  = match for_each xs body tr with
    | (Ret _, tr') => for_each ys body tr'
    | (Raise e, tr') => (Raise e, tr')
    end.
Proof.
  revert tr. induction xs as [|x xs IH]; intros tr; simpl.
  - reflexivity.
  - unfold bind. destruct (body x tr) as [[[]|e] tr']; [apply IH|reflexivity].
Qed.

Ltac run_step :=
  unfold bind, call, lift, ret, print, try_except; simpl.

(** ** [scrape_page] *)

Lemma scrape_body_ok (E : Env) (h : trace) (url : string) (texts : list string) :
  fetch_ok E h url texts ->
  scrape_body E url h
  = (Ret (slice_to 2000 (join nl texts)), h ++ [ERequestsGet url 5]).
Proof.
  intros [res soup paragraphs Hget Hstatus Hsoup Hfind Htexts].
  unfold scrape_body. run_step.
  rewrite Hget, Hstatus, Hsoup, Hfind, Htexts. reflexivity.
Qed.

Lemma scrape_body_fails (E : Env) (h : trace) (url : string) (e : exn) :
  fetch_fails E h url e ->
  scrape_body E url h = (Raise e, h ++ [ERequestsGet url 5]).
Proof.
  intros Hfail. unfold scrape_body. run_step.
  destruct Hfail as [Hget | res Hget Hstatus | res Hget Hstatus Hsoup
                    | res soup Hget Hstatus Hsoup Hfind
                    | res soup paragraphs Hget Hstatus Hsoup Hfind Htexts];
    rewrite Hget; try rewrite Hstatus; try rewrite Hsoup;
    try rewrite Hfind; try rewrite Htexts; reflexivity.
Qed.

(** Every fetch either succeeds or fails: there is no third way out of the
    [try] block. *)
Lemma fetch_cases (E : Env) (h : trace) (url : string) :
  (exists texts, fetch_ok E h url texts) \/ (exists e, fetch_fails E h url e).
Proof.
  destruct (requests_get E h url 5) as [res|e] eqn:Hget;
    [|right; exists e; apply FailGet; assumption].
  destruct (raise_for_status E res) as [[]|e] eqn:Hstatus;
    [|right; exists e; eapply FailStatus; eassumption].
  destruct (BeautifulSoup E (text res) "html.parser") as [soup|e] eqn:Hsoup;
    [|right; exists e; eapply FailParse; eassumption].
  destruct (find_all E soup "p") as [paragraphs|e] eqn:Hfind;
    [|right; exists e; eapply FailFindAll; eassumption].
  destruct (comprehension (get_text E) paragraphs) as [texts|e] eqn:Htexts;
    [|right; exists e; eapply FailGetText; eassumption].
  left. exists texts. eapply FetchOk; eassumption.
Qed.

Lemma scrape_page_ok (E : Env) (h : trace) (url : string) (texts : list string) :
  fetch_ok E h url texts ->
  scrape_page E url h
  = (Ret (slice_to 2000 (join nl texts)), h ++ [ERequestsGet url 5]).
Proof.
  intros Hok. unfold scrape_page, try_except.
  rewrite (scrape_body_ok E h url texts Hok). reflexivity.
Qed.

Lemma scrape_page_fails (E : Env) (h : trace) (url : string) (e : exn) :
  fetch_fails E h url e ->
  scrape_page E url h
  = (Ret "", h ++ [ERequestsGet url 5; EPrint (failure_line url e)]).
Proof.
  intros Hfail. unfold scrape_page, try_except.
  rewrite (scrape_body_fails E h url e Hfail). run_step.
  rewrite <- app_assoc. reflexivity.
Qed.

(** One iteration of the loop never raises and leaves exactly one entry. *)
Lemma loop_body_outcome (E : Env) (tr : trace) (url : string) (o : outcome) :
  outcome_at E (tr ++ [EPrint (header url)]) url o ->
  loop_body E url tr = (Ret tt, tr ++ entry_events url o).
Proof.
  intros Ho. unfold loop_body, bind, print, call.
  destruct o as [content|e]; simpl in Ho.
  - destruct Ho as (texts & Hok & ->).
    rewrite (scrape_page_ok E _ url texts Hok). simpl.
    rewrite <- !app_assoc. reflexivity.
  - rewrite (scrape_page_fails E _ url e Ho). simpl.
    rewrite <- !app_assoc. reflexivity.
Qed.

Lemma outcome_exists (E : Env) (h : trace) (url : string) :
  exists o, outcome_at E h url o.
Proof.
  destruct (fetch_cases E h url) as [[texts Hok]|[e Hfail]].
  - exists (Fetched (slice_to 2000 (join nl texts))). exists texts. split; [assumption|reflexivity].
  - exists (Failed e). exact Hfail.
Qed.

(** The whole loop: one entry per URL, in the order of the URLs. *)
Lemma for_each_outcomes (E : Env) (urls : list string) (tr : trace) :
  exists os,
    outcomes_at E tr urls os /\
    length os = length urls /\
    for_each urls (loop_body E) tr
    = (Ret tt, tr ++ concat (zip_with entry_events urls os)).
Proof.
  revert tr. induction urls as [|url urls IH]; intros tr.
  - exists []. simpl. rewrite app_nil_r. repeat split.
  - destruct (outcome_exists E (tr ++ [EPrint (header url)]) url) as [o Ho].
    destruct (IH (tr ++ entry_events url o)) as (os & Hos & Hlen & Hrun).
    exists (o :: os). simpl. split; [split; assumption|].
    split; [congruence|].
    unfold bind. rewrite (loop_body_outcome E tr url o Ho).
    rewrite Hrun, <- app_assoc. reflexivity.
Qed.

Lemma for_each_returns (E : Env) (urls : list string) (tr : trace) :
  exists tr', for_each urls (loop_body E) tr = (Ret tt, tr').
Proof.
  destruct (for_each_outcomes E urls tr) as (os & _ & _ & Hrun).
  eexists. exact Hrun.
Qed.

(** ** Search *)

(** [duckduckgo_search] calls the provider once, with the limit it was
    given, and returns the ['href'] of every result or raises what the
    provider or a lookup raised. *)
Lemma duckduckgo_search_eq (E : Env) (query : string) (max_results : Z) (tr : trace) :
  duckduckgo_search E query max_results tr
  = (match ddgs_text E tr query max_results with
     | Ret results => comprehension (getitem "href") results
     | Raise e => Raise e
     end,
     tr ++ [EDdgsText query max_results]).
Proof.
  unfold duckduckgo_search. run_step.
  destruct (ddgs_text E tr query max_results) as [results|e]; [|reflexivity].
  destruct (comprehension (getitem "href") results); reflexivity.
Qed.

Lemma main_searched (E : Env) (tr : trace) (query : string) (urls : list string) :
  input E tr prompt = Ret query ->
  fst (duckduckgo_search E query 3 (tr ++ [EInput prompt])) = Ret urls ->
  main E tr
  = for_each urls (loop_body E)
      (tr ++ [EInput prompt; EDdgsText query 3; EPrint (found_line E urls)]).
Proof.
  intros Hin Hsearch. unfold main. unfold bind at 1. unfold call at 1.
  fold prompt. rewrite Hin. unfold bind at 1.
  rewrite duckduckgo_search_eq in Hsearch |- *. simpl in Hsearch.
  rewrite Hsearch. unfold bind, print, call. fold (found_line E urls).
  rewrite <- !app_assoc. reflexivity.
Qed.

Lemma main_search_raises (E : Env) (tr : trace) (query : string) (e : exn) :
  input E tr prompt = Ret query ->
  fst (duckduckgo_search E query 3 (tr ++ [EInput prompt])) = Raise e ->
  main E tr = (Raise e, tr ++ [EInput prompt; EDdgsText query 3]).
Proof.
  intros Hin Hsearch. unfold main. unfold bind at 1. unfold call at 1.
  fold prompt. rewrite Hin. unfold bind at 1.
  rewrite duckduckgo_search_eq in Hsearch |- *. simpl in Hsearch.
  rewrite Hsearch, <- app_assoc. reflexivity.
Qed.

(** ** The notifier *)

Lemma search_and_notify_found (E : Env) (tr : trace) (query : string)
    (results : list dict) (urls : list string) :
  search E (tr ++ [EPrint (running_line query)]) query 3 = Ret results ->
  comprehension (getitem "url") results = Ret urls ->
  search_and_notify E query tr
  = (subprocess_run E
       (tr ++ [EPrint (running_line query); ESearch query 3;
               EPrint (found_line E urls)])
       (notify_argv (notify_message query urls)),
     tr ++ [EPrint (running_line query); ESearch query 3;
            EPrint (found_line E urls);
            ESubprocessRun (notify_argv (notify_message query urls))]).
Proof.
  intros Hsearch Hurls. unfold search_and_notify. run_step.
  fold (running_line query). rewrite Hsearch, Hurls.
  fold (found_line E urls). fold (notify_argv (notify_message query urls)).
  rewrite <- !app_assoc. simpl. reflexivity.
Qed.

Lemma search_and_notify_raises (E : Env) (tr : trace) (query : string) (e : exn) :
  match search E (tr ++ [EPrint (running_line query)]) query 3 with
  | Ret results => comprehension (getitem "url") results
  | Raise e' => Raise e'
  end = Raise e ->
  search_and_notify E query tr
  = (Raise e, tr ++ [EPrint (running_line query); ESearch query 3]).
Proof.
  intros Hsearch. unfold search_and_notify. run_step.
  fold (running_line query).
  destruct (search E (tr ++ [EPrint (running_line query)]) query 3) as [results|e'].
  - rewrite Hsearch, <- app_assoc. reflexivity.
  - inversion Hsearch; subst. rewrite <- app_assoc. reflexivity.
Qed.

(** * The claims *)

Ltac fetch_ok_by_eval := eapply FetchOk; reflexivity.

Lemma error_status_true (res : Response) :
  error_status res = true <-> (400 <= status_code res < 600)%Z.
Proof. unfold error_status. lia. Qed.

(** With the status check of [requests], a response fails the check exactly
    when its status is from 400 to 599. *)
Lemma status_check_raises (E : Env) (res : Response) :
  raises_for_error_status E ->
  ((400 <= status_code res < 600)%Z ->
   exists msg, raise_for_status E res = Raise (MkExn HTTPError msg))
  /\ (~ (400 <= status_code res < 600)%Z -> raise_for_status E res = Ret tt).
Proof.
  intros Hrule. specialize (Hrule res).
  destruct (error_status res) eqn:Hst.
  - split; [intros _; exact Hrule|].
    intros Hout. apply error_status_true in Hst. contradiction.
  - split; [|intros _; exact Hrule].
    intros Hin. apply error_status_true in Hin. congruence.
Qed.

(** C1, as amended: in the scrape pipeline, a URL whose fetch or parse
    raises (a network error, a timeout, or an HTTP status from 400 to 599,
    which [raise_for_status] rejects) gets the empty string as its
    PageContent, and the loop goes on with the URLs after it, whatever the
    position of the failing URL; in particular, with three URLs of which
    only the second fails, three entries are output: the first and the
    third carry their page's text, the second is empty.  A response with
    any other status, inside 2xx or not, is parsed and its text is
    returned. *)
Theorem failed_url_is_empty_and_loop_continues (E : Env) :
  (forall (h : trace) (url : string) (e : exn),
      fetch_fails E h url e ->
      scrape_page E url h
      = (Ret "", h ++ [ERequestsGet url 5; EPrint (failure_line url e)]))
  /\
  (forall (before after : list string) (url : string) (tr tr1 : trace) (e : exn),
      for_each before (loop_body E) tr = (Ret tt, tr1) ->
      fetch_fails E (tr1 ++ [EPrint (header url)]) url e ->
      for_each (before ++ url :: after) (loop_body E) tr
      = for_each after (loop_body E) (tr1 ++ entry_events url (Failed e)))
  /\
  (forall (tr : trace) (u1 u2 u3 : string) (t1 t3 : list string) (e : exn),
      let c1 := slice_to 2000 (join nl t1) in
      let c3 := slice_to 2000 (join nl t3) in
      let tr1 := tr ++ entry_events u1 (Fetched c1) in
      let tr2 := tr1 ++ entry_events u2 (Failed e) in
      fetch_ok E (tr ++ [EPrint (header u1)]) u1 t1 ->
      fetch_fails E (tr1 ++ [EPrint (header u2)]) u2 e ->
      fetch_ok E (tr2 ++ [EPrint (header u3)]) u3 t3 ->
      for_each [u1; u2; u3] (loop_body E) tr
      = (Ret tt, tr2 ++ entry_events u3 (Fetched c3))
      /\ map content_of [Fetched c1; Failed e; Fetched c3] = [c1; ""; c3])
  /\
  (raises_for_error_status E ->
   forall (h : trace) (url : string) (res : Response),
     requests_get E h url 5 = Ret res ->
     (400 <= status_code res < 600)%Z ->
     exists msg,
       scrape_page E url h
       = (Ret "",
          h ++ [ERequestsGet url 5;
                EPrint (failure_line url (MkExn HTTPError msg))]))
  /\
  (raises_for_error_status E ->
   forall (h : trace) (url : string) (res : Response) (soup : Soup E)
          (paragraphs : list (Tag E)) (texts : list string),
     requests_get E h url 5 = Ret res ->
     ~ (400 <= status_code res < 600)%Z ->
     BeautifulSoup E (text res) "html.parser" = Ret soup ->
     find_all E soup "p" = Ret paragraphs ->
     comprehension (get_text E) paragraphs = Ret texts ->
     scrape_page E url h
     = (Ret (slice_to 2000 (join nl texts)), h ++ [ERequestsGet url 5])).
Proof.
  split; [|split; [|split; [|split]]]; cycle 3.
  - intros Hrule h url res Hget Hstatus.
    destruct (proj1 (status_check_raises E res Hrule) Hstatus) as [msg Hmsg].
    exists msg. apply scrape_page_fails.
    eapply FailStatus; [exact Hget|exact Hmsg].
  - intros Hrule h url res soup paragraphs texts Hget Hstatus Hsoup Hfind Htexts.
    apply scrape_page_ok.
    eapply FetchOk; [exact Hget| |exact Hsoup|exact Hfind|exact Htexts].
    exact (proj2 (status_check_raises E res Hrule) Hstatus).
  - intros h url e Hfail. apply scrape_page_fails. exact Hfail.
  - intros before after url tr tr1 e Hbefore Hfail.
    rewrite for_each_app, Hbefore. simpl. unfold bind.
    rewrite (loop_body_outcome E tr1 url (Failed e) Hfail). reflexivity.
  - intros tr u1 u2 u3 t1 t3 e c1 c3 tr1 tr2 H1 H2 H3.
    split; [|reflexivity].
    simpl. unfold bind.
    rewrite (loop_body_outcome E tr u1 (Fetched c1));
      [|exists t1; split; [exact H1|reflexivity]].
    fold tr1.
    rewrite (loop_body_outcome E tr1 u2 (Failed e) H2). fold tr2.
    rewrite (loop_body_outcome E tr2 u3 (Fetched c3));
      [|exists t3; split; [exact H3|reflexivity]].
    reflexivity.
Qed.

(** C2: when the fetch succeeds, [scrape_page] returns the first 2000
    characters of the joined paragraph texts, a string of length at most
    2000. *)
Theorem scraped_text_at_most_2000 (E : Env) (h : trace) (url : string)
    (texts : list string) :
  fetch_ok E h url texts ->
  exists content,
    scrape_page E url h = (Ret content, h ++ [ERequestsGet url 5]) /\
    content = slice_to 2000 (join nl texts) /\
    String.length content <= 2000.
Proof.
  intros Hok. exists (slice_to 2000 (join nl texts)).
  split; [apply scrape_page_ok; exact Hok|].
  split; [reflexivity|apply slice_to_length].
Qed.

(** C7: for every sequence of URLs returned by Search, the scrape pipeline
    runs to its end and its output is, after the search lines, exactly one
    entry per URL, in the order in which Search returned the URLs; each
    entry is the outcome of that URL's own fetch. *)
Theorem scrape_output_one_entry_per_url_in_order (E : Env) (tr : trace)
    (query : string) (urls : list string) :
  input E tr prompt = Ret query ->
  fst (duckduckgo_search E query 3 (tr ++ [EInput prompt])) = Ret urls ->
  let searched :=
    tr ++ [EInput prompt; EDdgsText query 3; EPrint (found_line E urls)] in
  exists outcomes : list outcome,
    length outcomes = length urls /\
    outcomes_at E searched urls outcomes /\
    main E tr
    = (Ret tt, searched ++ concat (zip_with entry_events urls outcomes)).
Proof.
  intros Hin Hsearch searched.
  destruct (for_each_outcomes E urls searched) as (os & Hos & Hlen & Hrun).
  exists os. split; [exact Hlen|]. split; [exact Hos|].
  rewrite (main_searched E tr query urls Hin Hsearch). exact Hrun.
Qed.

(** ** [scrape_page] and the exceptions outside [Exception] *)

Lemma full_comprehension_of_result {A B} (f : A -> result B) (xs : list A) :
  Full.comprehension (fun x => Full.of_result (f x)) xs
  = Full.of_result (comprehension f xs).
Proof.
  induction xs as [|x xs IH]; simpl; [reflexivity|].
  destruct (f x) as [y|e]; simpl; [|reflexivity].
  rewrite IH. destruct (comprehension f xs); reflexivity.
Qed.

Lemma full_comprehension_within {A B} (f : A -> Full.outcome_of B) (xs : list A) :
  (forall x, Full.within_Exception (f x)) ->
  Full.within_Exception (Full.comprehension f xs).
Proof.
  intros Hf. induction xs as [|x xs IH]; simpl; [exact I|].
  pose proof (Hf x) as Hx. destruct (f x) as [y|r]; [|exact Hx].
  destruct (Full.comprehension f xs) as [ys|r]; [exact I|exact IH].
Qed.

(** In the world of an environment the full [try] block does what the
    [try] block of the environment does. *)
Lemma full_scrape_body_of_env (E : Env) (url : string) (h : trace) :
  Full.scrape_body (Full.of_env E) url h
  = (Full.of_result (fst (scrape_body E url h)), snd (scrape_body E url h)).
Proof.
  unfold Full.scrape_body, scrape_body, Full.bind, Full.call, Full.lift,
    Full.ret, bind, call, lift, ret. simpl.
  destruct (requests_get E h url 5) as [res|e]; simpl; [|reflexivity].
  destruct (raise_for_status E res) as [[]|e]; simpl; [|reflexivity].
  destruct (BeautifulSoup E (text res) "html.parser") as [soup|e]; simpl;
    [|reflexivity].
  destruct (find_all E soup "p") as [paragraphs|e]; simpl; [|reflexivity].
  rewrite (full_comprehension_of_result (get_text E) paragraphs).
  destruct (comprehension (get_text E) paragraphs); reflexivity.
Qed.

Lemma full_scrape_page_of_env (E : Env) (url : string) (h : trace) :
  Full.scrape_page (Full.of_env E) url h
  = (Full.of_result (fst (scrape_page E url h)), snd (scrape_page E url h)).
Proof.
  unfold Full.scrape_page, Full.try_except_Exception, scrape_page, try_except.
  rewrite full_scrape_body_of_env.
  destruct (scrape_body E url h) as [[content|e] h']; reflexivity.
Qed.

(** When every step returns or raises an instance of [Exception], so does
    the [try] block. *)
Lemma full_scrape_body_within (W : Full.World) (url : string) (h : trace) :
  Full.raises_only_Exception W ->
  Full.within_Exception (fst (Full.scrape_body W url h)).
Proof.
  intros [Hget Hstatus Hsoup Hfind Htext].
  unfold Full.scrape_body, Full.bind, Full.call, Full.lift, Full.ret.
  pose proof (Hget h url 5%Z) as H1.
  destruct (Full.w_requests_get W h url 5) as [res|r]; [|exact H1].
  pose proof (Hstatus res) as H2.
  destruct (Full.w_raise_for_status W res) as [[]|r]; [|exact H2].
  pose proof (Hsoup (text res) "html.parser") as H3.
  destruct (Full.w_BeautifulSoup W (text res) "html.parser") as [soup|r];
    [|exact H3].
  pose proof (Hfind soup "p") as H4.
  destruct (Full.w_find_all W soup "p") as [paragraphs|r]; [|exact H4].
  pose proof (full_comprehension_within (Full.w_get_text W) paragraphs Htext)
    as H5.
  destruct (Full.comprehension (Full.w_get_text W) paragraphs) as [texts|r];
    [exact I|exact H5].
Qed.

(** The [try] block only appends to the history. *)
Lemma full_scrape_body_extends (W : Full.World) (url : string) (h : trace) :
  snd (Full.scrape_body W url h) = h ++ [ERequestsGet url 5].
Proof.
  unfold Full.scrape_body, Full.bind, Full.call, Full.lift, Full.ret.
  destruct (Full.w_requests_get W h url 5) as [res|r]; [|reflexivity].
  destruct (Full.w_raise_for_status W res) as [[]|r]; [|reflexivity].
  destruct (Full.w_BeautifulSoup W (text res) "html.parser") as [soup|r];
    [|reflexivity].
  destruct (Full.w_find_all W soup "p") as [paragraphs|r]; [|reflexivity].
  destruct (Full.comprehension (Full.w_get_text W) paragraphs); reflexivity.
Qed.

(** C9, as amended: [scrape_page] returns a string and lets nothing out for
    every URL and every behaviour of the fetch and parse collaborators that
    returns or raises an instance of [Exception], the handler's [print]
    succeeding: the handler catches the instances of [Exception], prints
    one line and returns the empty string.  What a step of the [try] block
    raises outside [Exception] ([KeyboardInterrupt], [SystemExit]) is not
    caught and reaches the caller. *)
Theorem scrape_page_catches_exception_instances (W : Full.World)
    (url : string) (h : trace) :
  (Full.raises_only_Exception W ->
   Full.print_succeeds W ->
   exists content evs,
     Full.scrape_page W url h = (Full.Returns content, h ++ evs))
  /\
  (forall e h',
      Full.scrape_body W url h = (Full.Raises (Full.AnException e), h') ->
      Full.w_print W h' (failure_line url e) = Full.Returns tt ->
      Full.scrape_page W url h
      = (Full.Returns "", h' ++ [EPrint (failure_line url e)]))
  /\
  (forall x h',
      Full.scrape_body W url h = (Full.Raises x, h') ->
      Full.isinstance_Exception x = false ->
      Full.scrape_page W url h = (Full.Raises x, h'))
  /\
  (forall x,
      Full.w_requests_get W h url 5 = Full.Raises x ->
      Full.isinstance_Exception x = false ->
      Full.scrape_page W url h = (Full.Raises x, h ++ [ERequestsGet url 5]))
  /\
  (forall E : Env,
      W = Full.of_env E ->
      Full.scrape_page W url h
      = (Full.of_result (fst (scrape_page E url h)), snd (scrape_page E url h))
      /\ exists content evs, scrape_page E url h = (Ret content, h ++ evs)).
Proof.
  assert (Hcaught : forall e h',
             Full.scrape_body W url h = (Full.Raises (Full.AnException e), h') ->
             Full.w_print W h' (failure_line url e) = Full.Returns tt ->
             Full.scrape_page W url h
             = (Full.Returns "", h' ++ [EPrint (failure_line url e)])).
  { intros e h' Hbody Hprint.
    unfold Full.scrape_page, Full.try_except_Exception. rewrite Hbody.
    unfold Full.bind, Full.print, Full.call, Full.ret. rewrite Hprint.
    reflexivity. }
  assert (Hpass : forall x h',
             Full.scrape_body W url h = (Full.Raises x, h') ->
             Full.isinstance_Exception x = false ->
             Full.scrape_page W url h = (Full.Raises x, h')).
  { intros x h' Hbody Hx.
    unfold Full.scrape_page, Full.try_except_Exception. rewrite Hbody.
    destruct x; [discriminate Hx|reflexivity..]. }
  split; [|split; [exact Hcaught|split; [exact Hpass|split]]].
  - intros Honly Hprint.
    pose proof (full_scrape_body_within W url h Honly) as Hwithin.
    pose proof (full_scrape_body_extends W url h) as Hext.
    destruct (Full.scrape_body W url h) as [[content|x] h'] eqn:Hbody;
      simpl in Hwithin, Hext; subst h'.
    + exists content, [ERequestsGet url 5].
      unfold Full.scrape_page, Full.try_except_Exception. rewrite Hbody.
      reflexivity.
    + destruct x as [e| | |]; try discriminate Hwithin.
      exists "", [ERequestsGet url 5; EPrint (failure_line url e)].
      rewrite (Hcaught e _ eq_refl (Hprint _ _)), <- app_assoc. reflexivity.
  - intros x Hget Hx. apply Hpass; [|exact Hx].
    unfold Full.scrape_body, Full.bind, Full.call. rewrite Hget. reflexivity.
  - intros E ->. split; [apply full_scrape_page_of_env|].
    destruct (fetch_cases E h url) as [[texts Hok]|[e Hfail]].
    + eexists. eexists. apply scrape_page_ok. exact Hok.
    + eexists. eexists. apply scrape_page_fails. exact Hfail.
Qed.

(** C10: a page that is fetched and parsed but holds no paragraph gives the
    empty string, which is also what a failed fetch gives: the returned
    value is the same in both cases. *)
Theorem empty_page_same_as_failed_fetch (E : Env) (h : trace) (url : string)
    (res : Response) (soup : Soup E) :
  requests_get E h url 5 = Ret res ->
  raise_for_status E res = Ret tt ->
  BeautifulSoup E (text res) "html.parser" = Ret soup ->
  find_all E soup "p" = Ret [] ->
  scrape_page E url h = (Ret "", h ++ [ERequestsGet url 5]) /\
  (forall (E' : Env) (h' : trace) (url' : string) (e : exn),
      fetch_fails E' h' url' e ->
      fst (scrape_page E' url' h') = fst (scrape_page E url h)).
Proof.
  intros Hget Hstatus Hsoup Hfind.
  assert (Hpage : scrape_page E url h = (Ret "", h ++ [ERequestsGet url 5])).
  { apply (scrape_page_ok E h url []).
    eapply FetchOk; [exact Hget|exact Hstatus|exact Hsoup|exact Hfind|reflexivity]. }
  split; [exact Hpage|].
  intros E' h' url' e Hfail.
  rewrite Hpage, (scrape_page_fails E' h' url' e Hfail). reflexivity.
Qed.

Lemma main_no_results (E : Env) (tr : trace) (query : string) :
  input E tr prompt = Ret query ->
  fst (duckduckgo_search E query 3 (tr ++ [EInput prompt])) = Ret [] ->
  main E tr
  = (Ret tt, tr ++ [EInput prompt; EDdgsText query 3; EPrint "Found URLs: []"]).
Proof.
  intros Hin Hsearch. rewrite (main_searched E tr query [] Hin Hsearch).
  reflexivity.
Qed.

Lemma notify_no_results (E : Env) (tr : trace) (query : string) (results : list dict) :
  search E (tr ++ [EPrint (running_line query)]) query 3 = Ret results ->
  comprehension (getitem "url") results = Ret [] ->
  search_and_notify E query tr
  = (subprocess_run E
       (tr ++ [EPrint (running_line query); ESearch query 3;
               EPrint "Found URLs: []"])
       ["notify-send"; "TinyLlama";
        "Search done for '" +:+ query +:+ "', found 0 results."],
     tr ++ [EPrint (running_line query); ESearch query 3;
            EPrint "Found URLs: []";
            ESubprocessRun
              ["notify-send"; "TinyLlama";
               "Search done for '" +:+ query +:+ "', found 0 results."]]).
Proof.
  intros Hsearch Hurls.
  rewrite (search_and_notify_found E tr query results [] Hsearch Hurls).
  reflexivity.
Qed.

(** The events of a run of [main] start with the prompt and one provider
    call with limit 3. *)
Lemma main_trace_prefix (E : Env) (tr : trace) (query : string) :
  input E tr prompt = Ret query ->
  exists evs, snd (main E tr) = tr ++ [EInput prompt; EDdgsText query 3] ++ evs.
Proof.
  intros Hin.
  destruct (fst (duckduckgo_search E query 3 (tr ++ [EInput prompt])))
    as [urls|e] eqn:Hsearch.
  - rewrite (main_searched E tr query urls Hin Hsearch).
    destruct (for_each_outcomes E urls
                (tr ++ [EInput prompt; EDdgsText query 3; EPrint (found_line E urls)]))
      as (os & _ & _ & ->).
    exists (EPrint (found_line E urls) :: concat (zip_with entry_events urls os)).
    simpl. rewrite <- app_assoc. reflexivity.
  - rewrite (main_search_raises E tr query e Hin Hsearch).
    exists []. reflexivity.
Qed.

Lemma search_and_notify_trace_prefix (E : Env) (tr : trace) (query : string) :
  exists evs,
    snd (search_and_notify E query tr)
    = tr ++ [EPrint (running_line query); ESearch query 3] ++ evs.
Proof.
  destruct (search E (tr ++ [EPrint (running_line query)]) query 3)
    as [results|e] eqn:Hsearch.
  - destruct (comprehension (getitem "url") results) as [urls|e] eqn:Hurls.
    + rewrite (search_and_notify_found E tr query results urls Hsearch Hurls).
      eexists. simpl. reflexivity.
    + rewrite (search_and_notify_raises E tr query e);
        [|rewrite Hsearch; exact Hurls].
      exists []. reflexivity.
  - rewrite (search_and_notify_raises E tr query e);
      [|rewrite Hsearch; reflexivity].
    exists []. reflexivity.
Qed.

(** C3, as amended: an unreachable provider or a result without its link
    makes Search raise to its caller, and neither pipeline catches it: the
    run ends with that exception, before any page is fetched and before
    any notification is sent.  A provider answer of zero results is no
    error: both pipelines run to their end. *)
Theorem search_errors_propagate_zero_results_pass (E : Env) :
  (forall (query : string) (n : Z) (tr : trace) (e : exn),
      ddgs_text E tr query n = Raise e ->
      duckduckgo_search E query n tr = (Raise e, tr ++ [EDdgsText query n]))
  /\
  (forall (query : string) (n : Z) (tr : trace) (results : list dict),
      ddgs_text E tr query n = Ret results ->
      (exists r, In r results /\ r !! "href" = None) ->
      duckduckgo_search E query n tr
      = (Raise (MkExn KeyError "'href'"), tr ++ [EDdgsText query n]))
  /\
  (forall (tr : trace) (query : string) (e : exn),
      input E tr prompt = Ret query ->
      fst (duckduckgo_search E query 3 (tr ++ [EInput prompt])) = Raise e ->
      main E tr = (Raise e, tr ++ [EInput prompt; EDdgsText query 3]))
  /\
  (forall (tr : trace) (query : string) (e : exn),
      match search E (tr ++ [EPrint (running_line query)]) query 3 with
      | Ret results => comprehension (getitem "url") results
      | Raise e' => Raise e'
      end = Raise e ->
      search_and_notify E query tr
      = (Raise e, tr ++ [EPrint (running_line query); ESearch query 3]))
  /\
  (forall (tr : trace) (query : string),
      input E tr prompt = Ret query ->
      ddgs_text E (tr ++ [EInput prompt]) query 3 = Ret [] ->
      main E tr
      = (Ret tt, tr ++ [EInput prompt; EDdgsText query 3; EPrint "Found URLs: []"]))
  /\
  (forall (tr : trace) (query : string),
      search E (tr ++ [EPrint (running_line query)]) query 3 = Ret [] ->
      exists sink_result,
        search_and_notify E query tr
        = (sink_result,
           tr ++ [EPrint (running_line query); ESearch query 3;
                  EPrint "Found URLs: []";
                  ESubprocessRun
                    ["notify-send"; "TinyLlama";
                     "Search done for '" +:+ query +:+ "', found 0 results."]])
        /\ sink_result
           = subprocess_run E
               (tr ++ [EPrint (running_line query); ESearch query 3;
                       EPrint "Found URLs: []"])
               ["notify-send"; "TinyLlama";
                "Search done for '" +:+ query +:+ "', found 0 results."]).
Proof.
  repeat apply conj.
  - intros query n tr e Hprov. rewrite duckduckgo_search_eq, Hprov. reflexivity.
  - intros query n tr results Hprov Hmissing.
    rewrite duckduckgo_search_eq, Hprov.
    rewrite (comprehension_missing_key "href" results Hmissing). reflexivity.
  - intros tr query e. apply main_search_raises.
  - intros tr query e. apply search_and_notify_raises.
  - intros tr query Hin Hprov. apply main_no_results; [exact Hin|].
    rewrite duckduckgo_search_eq. simpl. rewrite Hprov. reflexivity.
  - intros tr query Hsearch. eexists. split.
    + apply (notify_no_results E tr query [] Hsearch). reflexivity.
    + reflexivity.
Qed.

(** C4, as amended: Search does not validate the limit.  For every limit,
    0 included, [duckduckgo_search] calls the provider exactly once with
    that very limit, and returns the links of whatever the provider
    answers or raises what it raises.  The two pipelines always search
    with limit 3. *)
Theorem search_forwards_any_limit (E : Env) (query : string) (tr : trace) :
  (forall n : Z,
      duckduckgo_search E query n tr
      = (match ddgs_text E tr query n with
         | Ret results => comprehension (getitem "href") results
         | Raise e => Raise e
         end,
         tr ++ [EDdgsText query n]))
  /\ snd (duckduckgo_search E query 0 tr) = tr ++ [EDdgsText query 0]
  /\ (forall typed : string,
         input E tr prompt = Ret typed ->
         exists evs,
           snd (main E tr) = tr ++ [EInput prompt; EDdgsText typed 3] ++ evs)
  /\ (exists evs,
         snd (search_and_notify E query tr)
         = tr ++ [EPrint (running_line query); ESearch query 3] ++ evs).
Proof.
  split; [intros n; apply duckduckgo_search_eq|].
  split; [rewrite duckduckgo_search_eq; reflexivity|].
  split; [intros typed; apply main_trace_prefix|].
  apply search_and_notify_trace_prefix.
Qed.

(** C5: the notification sent by the notifier carries the query and the
    number of URLs found; with the query "latest tech news", limit 3 and a
    provider that gives three URLs, its text is exactly
    "Search done for 'latest tech news', found 3 results.". *)
Theorem notifier_message_text (E : Env) (tr : trace) :
  (forall (query : string) (results : list dict) (urls : list string),
      search E (tr ++ [EPrint (running_line query)]) query 3 = Ret results ->
      comprehension (getitem "url") results = Ret urls ->
      snd (search_and_notify E query tr)
      = tr ++ [EPrint (running_line query); ESearch query 3;
               EPrint (found_line E urls);
               ESubprocessRun
                 ["notify-send"; "TinyLlama";
                  "Search done for '" +:+ query +:+ "', found "
                    +:+ str_of_nat (length results) +:+ " results."]])
  /\
  (forall (results : list dict) (u1 u2 u3 : string),
      search E (tr ++ [EPrint (running_line "latest tech news")])
        "latest tech news" 3 = Ret results ->
      comprehension (getitem "url") results = Ret [u1; u2; u3] ->
      snd (notify_main E tr)
      = tr ++ [EPrint "Running search for: latest tech news";
               ESearch "latest tech news" 3;
               EPrint (found_line E [u1; u2; u3]);
               ESubprocessRun
                 ["notify-send"; "TinyLlama";
                  "Search done for 'latest tech news', found 3 results."]]).
Proof.
  split.
  - intros query results urls Hsearch Hurls.
    rewrite (search_and_notify_found E tr query results urls Hsearch Hurls).
    simpl. unfold notify_argv, notify_message.
    rewrite (comprehension_length _ _ _ Hurls). reflexivity.
  - intros results u1 u2 u3 Hsearch Hurls. unfold notify_main.
    rewrite (search_and_notify_found E tr _ results [u1; u2; u3] Hsearch Hurls).
    reflexivity.
Qed.

(** C6: when Search returns no result, the scrape pipeline outputs no
    PageContent entry (it fetches nothing and prints nothing after the
    list of URLs), and the notifier's message reports 0 results. *)
Theorem zero_results_no_entries_and_count_zero (E : Env) (tr : trace)
    (query : string) :
  (input E tr prompt = Ret query ->
   fst (duckduckgo_search E query 3 (tr ++ [EInput prompt])) = Ret [] ->
   main E tr
   = (Ret tt,
      tr ++ [EInput prompt; EDdgsText query 3; EPrint "Found URLs: []"]))
  /\
  (forall results : list dict,
      search E (tr ++ [EPrint (running_line query)]) query 3 = Ret results ->
      comprehension (getitem "url") results = Ret [] ->
      snd (search_and_notify E query tr)
      = tr ++ [EPrint (running_line query); ESearch query 3;
               EPrint "Found URLs: []";
               ESubprocessRun
                 ["notify-send"; "TinyLlama";
                  "Search done for '" +:+ query +:+ "', found 0 results."]]).
Proof.
  split.
  - apply main_no_results.
  - intros results Hsearch Hurls.
    rewrite (notify_no_results E tr query results Hsearch Hurls). reflexivity.
Qed.

(** C8: against a deterministic provider, two calls of Search with the same
    query and limit give the same URLs in the same order, whether the
    second call follows the first or starts from any other history. *)
Theorem search_twice_same_urls (E : Env) (query : string) (max_results : Z)
    (tr : trace) :
  deterministic_provider E ->
  (let first := duckduckgo_search E query max_results tr in
   let second := duckduckgo_search E query max_results (snd first) in
   fst second = fst first)
  /\
  (forall tr' : trace,
      fst (duckduckgo_search E query max_results tr')
      = fst (duckduckgo_search E query max_results tr)).
Proof.
  intros Hdet.
  assert (Hany : forall tr' : trace,
             fst (duckduckgo_search E query max_results tr')
             = fst (duckduckgo_search E query max_results tr)).
  { intros tr'. rewrite !duckduckgo_search_eq. simpl.
    rewrite (Hdet tr' tr query max_results). reflexivity. }
  split; [|exact Hany].
  simpl. apply Hany.
Qed.

(** ** The claims on the stub world *)

Import Stub.

Lemma stub_status_check (provider : string -> Z -> result (list dict))
    (fetch : string -> result Response) :
  raises_for_error_status (make_env provider fetch).
Proof.
  intros res. simpl. unfold check_status. fold (error_status res).
  destruct (error_status res); [eexists; reflexivity|reflexivity].
Qed.

Lemma failed_url_is_empty_and_loop_continues_witness :
  scrape_page env_b_down url_b []
  = (Ret "", [ERequestsGet url_b 5; EPrint (failure_line url_b timed_out)])
  /\
  for_each [url_a; url_b; url_c] (loop_body env_b_down) []
  = (Ret tt,
     entry_events url_a (Fetched ("alpha" +:+ nl +:+ "beta"))
     ++ entry_events url_b (Failed timed_out)
     ++ entry_events url_c (Fetched (slice_to 2000 long_text)))
  /\
  (exists msg,
      scrape_page env_not_found url_a []
      = (Ret "",
         [ERequestsGet url_a 5;
          EPrint (failure_line url_a (MkExn HTTPError msg))]))
  /\
  scrape_page env_not_modified url_a []
  = (Ret ("alpha" +:+ nl +:+ "beta"), [ERequestsGet url_a 5]).
Proof.
  destruct (failed_url_is_empty_and_loop_continues env_b_down) as (H1 & _ & H3 & _).
  destruct (failed_url_is_empty_and_loop_continues env_not_found)
    as (_ & _ & _ & H4 & _).
  destruct (failed_url_is_empty_and_loop_continues env_not_modified)
    as (_ & _ & _ & _ & H5).
  split; [|split; [|split]].
  - apply (H1 [] url_b timed_out). apply FailGet. reflexivity.
  - refine (proj1 (H3 [] url_a url_b url_c ["alpha"; "beta"] [long_text]
                      timed_out _ _ _)).
    + fetch_ok_by_eval.
    + apply FailGet. reflexivity.
    + fetch_ok_by_eval.
  - apply (H4 (stub_status_check _ _) [] url_a (MkResponse 404 page_a));
      [reflexivity|simpl; lia].
  - apply (H5 (stub_status_check _ _) [] url_a (MkResponse 304 page_a)
              ["alpha"; "beta"] ["alpha"; "beta"] ["alpha"; "beta"]);
      [reflexivity|simpl; lia|reflexivity|reflexivity|reflexivity].
Defined.

(** The claim of C1 as the specification words it fails: a status outside
    2xx that [raise_for_status] accepts, here 304, is no failure, and the
    page's text is returned. *)
Lemma non_2xx_status_is_not_always_empty :
  raises_for_error_status env_not_modified
  /\ requests_get env_not_modified [] url_a 5 = Ret (MkResponse 304 page_a)
  /\ scrape_page env_not_modified url_a []
     = (Ret ("alpha" +:+ nl +:+ "beta"), [ERequestsGet url_a 5])
  /\ ~ (forall (E : Env) (h : trace) (url : string) (res : Response),
           raises_for_error_status E ->
           requests_get E h url 5 = Ret res ->
           ~ (200 <= status_code res < 300)%Z ->
           fst (scrape_page E url h) = Ret "").
Proof.
  split; [apply stub_status_check|].
  split; [reflexivity|]. split; [reflexivity|].
  intros Hclaim.
  specialize (Hclaim env_not_modified [] url_a (MkResponse 304 page_a)
                (stub_status_check _ _) eq_refl).
  simpl in Hclaim. assert (Hempty : Ret ("alpha" +:+ nl +:+ "beta") = Ret "").
  { apply Hclaim. lia. }
  discriminate Hempty.
Qed.

Lemma scraped_text_at_most_2000_witness :
  exists content,
    scrape_page env_b_down url_c [] = (Ret content, [ERequestsGet url_c 5]) /\
    content = slice_to 2000 (join nl [long_text]) /\
    String.length content <= 2000.
Proof.
  apply (scraped_text_at_most_2000 env_b_down [] url_c [long_text]).
  fetch_ok_by_eval.
Defined.

Lemma scrape_output_one_entry_per_url_in_order_witness :
  exists outcomes : list outcome,
    length outcomes = 3 /\
    outcomes_at env_b_down
      [EInput prompt; EDdgsText "latest tech news" 3;
       EPrint (found_line env_b_down [url_a; url_b; url_c])]
      [url_a; url_b; url_c] outcomes /\
    main env_b_down []
    = (Ret tt,
       [EInput prompt; EDdgsText "latest tech news" 3;
        EPrint (found_line env_b_down [url_a; url_b; url_c])]
       ++ concat (zip_with entry_events [url_a; url_b; url_c] outcomes)).
Proof.
  apply (scrape_output_one_entry_per_url_in_order env_b_down []
           "latest tech news" [url_a; url_b; url_c]); reflexivity.
Defined.

Lemma env_world_raises_only_Exception (E : Env) :
  Full.raises_only_Exception (Full.of_env E).
Proof.
  split; simpl.
  - intros h url timeout. destruct (requests_get E h url timeout); reflexivity.
  - intros res. destruct (raise_for_status E res); reflexivity.
  - intros markup parser. destruct (BeautifulSoup E markup parser); reflexivity.
  - intros soup name. destruct (find_all E soup name); reflexivity.
  - intros tag. destruct (get_text E tag); reflexivity.
Qed.

Lemma scrape_page_catches_exception_instances_witness :
  (exists content evs,
      Full.scrape_page (Full.of_env env_b_down) url_b []
      = (Full.Returns content, [] ++ evs))
  /\
  Full.scrape_page (Full.of_env env_b_down) url_b []
  = (Full.Returns "",
     [ERequestsGet url_b 5] ++ [EPrint (failure_line url_b timed_out)])
  /\
  Full.scrape_page world_interrupted url_a []
  = (Full.Raises Full.KeyboardInterrupt, [] ++ [ERequestsGet url_a 5]).
Proof.
  destruct (scrape_page_catches_exception_instances
              (Full.of_env env_b_down) url_b [])
    as (Hreturns & Hcaught & _).
  destruct (scrape_page_catches_exception_instances world_interrupted url_a [])
    as (_ & _ & _ & Hget & _).
  split; [|split].
  - apply Hreturns.
    + apply env_world_raises_only_Exception.
    + intros h line. reflexivity.
  - apply (Hcaught timed_out [ERequestsGet url_b 5]); reflexivity.
  - apply (Hget Full.KeyboardInterrupt); reflexivity.
Defined.

(** The claim of C9 as it is worded fails: a [KeyboardInterrupt] raised
    while the page is fetched is not an instance of [Exception], the
    handler does not catch it, and it leaves [scrape_page]. *)
Lemma keyboard_interrupt_leaves_scrape_page :
  Full.scrape_page world_interrupted url_a []
  = (Full.Raises Full.KeyboardInterrupt, [ERequestsGet url_a 5])
  /\ ~ (forall (W : Full.World) (url : string) (h : trace),
           exists content h',
             Full.scrape_page W url h = (Full.Returns content, h')).
Proof.
  split; [reflexivity|].
  intros Hclaim. destruct (Hclaim world_interrupted url_a [])
    as (content & h' & Hrun).
  discriminate Hrun.
Qed.

Lemma empty_page_same_as_failed_fetch_witness :
  scrape_page env_bare url_a [] = (Ret "", [ERequestsGet url_a 5]) /\
  fst (scrape_page env_b_down url_b []) = fst (scrape_page env_bare url_a []).
Proof.
  destruct (empty_page_same_as_failed_fetch env_bare [] url_a
              (MkResponse 200 page_bare) [])
    as [Hpage Hsame]; try reflexivity.
  split; [exact Hpage|].
  apply (Hsame env_b_down [] url_b timed_out). apply FailGet. reflexivity.
Defined.

(** The claim of C3 as the specification words it fails: with the provider
    unreachable, or with a result that lacks its link, Search raises and
    both callers end with the exception uncaught. *)
Lemma search_failure_crashes_both_pipelines :
  main env_down [] = (Raise unreachable, [EInput prompt; EDdgsText "latest tech news" 3])
  /\ search_and_notify env_down "latest tech news" []
     = (Raise unreachable,
        [EPrint "Running search for: latest tech news"; ESearch "latest tech news" 3])
  /\ main env_malformed []
     = (Raise (MkExn KeyError "'href'"),
        [EInput prompt; EDdgsText "latest tech news" 3])
  /\ ~ (forall (E : Env) (tr : trace) (query : string) (e : exn),
           input E tr prompt = Ret query ->
           ddgs_text E (tr ++ [EInput prompt]) query 3 = Raise e ->
           ~ crashes (main E) tr)
  /\ ~ (forall (E : Env) (tr : trace) (query : string) (e : exn),
           search E (tr ++ [EPrint (running_line query)]) query 3 = Raise e ->
           ~ crashes (search_and_notify E query) tr).
Proof.
  repeat apply conj; try reflexivity.
  - intros Hclaim.
    apply (Hclaim env_down [] "latest tech news" unreachable);
      [reflexivity|reflexivity|].
    exists unreachable. reflexivity.
  - intros Hclaim.
    apply (Hclaim env_down [] "latest tech news" unreachable); [reflexivity|].
    exists unreachable. reflexivity.
Qed.

Lemma search_errors_propagate_zero_results_pass_witness :
  duckduckgo_search env_down "rust" 3 [] = (Raise unreachable, [EDdgsText "rust" 3])
  /\ duckduckgo_search env_malformed "rust" 3 []
     = (Raise (MkExn KeyError "'href'"), [EDdgsText "rust" 3])
  /\ main env_down []
     = (Raise unreachable, [EInput prompt; EDdgsText "latest tech news" 3])
  /\ search_and_notify env_malformed "rust" []
     = (Raise (MkExn KeyError "'url'"),
        [EPrint "Running search for: rust"; ESearch "rust" 3])
  /\ main env_empty []
     = (Ret tt,
        [EInput prompt; EDdgsText "latest tech news" 3; EPrint "Found URLs: []"])
  /\ fst (search_and_notify env_empty "rust" []) = Ret tt.
Proof.
  destruct (search_errors_propagate_zero_results_pass env_down)
    as (Hdown & _ & Hmain & _).
  destruct (search_errors_propagate_zero_results_pass env_malformed)
    as (_ & Hkey & _ & Hnotify & _).
  destruct (search_errors_propagate_zero_results_pass env_empty)
    as (_ & _ & _ & _ & Hzero & Hzero').
  repeat apply conj.
  - apply (Hdown "rust" 3%Z [] unreachable). reflexivity.
  - apply (Hkey "rust" 3%Z [] [hit url_a; <["title" := "no link"]> ∅]);
      [reflexivity|].
    exists (<["title" := "no link"]> ∅). split; [right; left; reflexivity|].
    reflexivity.
  - apply (Hmain [] "latest tech news" unreachable); reflexivity.
  - apply (Hnotify [] "rust"). reflexivity.
  - apply (Hzero [] "latest tech news"); reflexivity.
  - destruct (Hzero' [] "rust") as (sink & -> & ->); reflexivity.
Defined.

(** The claim of C4 as the specification words it fails: limit 0 goes to
    the provider like any other limit, and what the provider answers is
    returned. *)
Lemma limit_zero_reaches_provider :
  duckduckgo_search env_b_down "rust" 0 []
  = (Ret [url_a; url_b; url_c], [EDdgsText "rust" 0])
  /\ ~ (forall (E : Env) (query : string),
           ~ In (EDdgsText query 0) (snd (duckduckgo_search E query 0 []))).
Proof.
  split; [reflexivity|].
  intros Hclaim. apply (Hclaim env_b_down "rust"). left. reflexivity.
Qed.

Lemma search_forwards_any_limit_witness :
  snd (duckduckgo_search env_b_down "rust" 0 []) = [EDdgsText "rust" 0]
  /\ exists evs,
       snd (main env_b_down [])
       = [EInput prompt; EDdgsText "latest tech news" 3] ++ evs.
Proof.
  destruct (search_forwards_any_limit env_b_down "rust" [])
    as (_ & Hzero & Hmain & _).
  split; [exact Hzero|].
  apply (Hmain "latest tech news"). reflexivity.
Defined.

Lemma notifier_message_text_witness :
  snd (notify_main env_b_down [])
  = [EPrint "Running search for: latest tech news";
     ESearch "latest tech news" 3;
     EPrint (found_line env_b_down [url_a; url_b; url_c]);
     ESubprocessRun
       ["notify-send"; "TinyLlama";
        "Search done for 'latest tech news', found 3 results."]].
Proof.
  apply (proj2 (notifier_message_text env_b_down [])
           [hit url_a; hit url_b; hit url_c] url_a url_b url_c);
    reflexivity.
Defined.

Lemma zero_results_no_entries_and_count_zero_witness :
  main env_empty []
  = (Ret tt,
     [EInput prompt; EDdgsText "latest tech news" 3; EPrint "Found URLs: []"])
  /\
  snd (search_and_notify env_empty "rust" [])
  = [EPrint "Running search for: rust"; ESearch "rust" 3;
     EPrint "Found URLs: []";
     ESubprocessRun
       ["notify-send"; "TinyLlama"; "Search done for 'rust', found 0 results."]].
Proof.
  split.
  - apply (proj1 (zero_results_no_entries_and_count_zero env_empty []
                    "latest tech news")); reflexivity.
  - apply (proj2 (zero_results_no_entries_and_count_zero env_empty [] "rust")
             []); reflexivity.
Defined.

Lemma stub_provider_deterministic : deterministic_provider env_b_down.
Proof. intros h1 h2 query max_results. reflexivity. Qed.

Lemma search_twice_same_urls_witness :
  deterministic_provider env_b_down /\
  fst (duckduckgo_search env_b_down "rust" 3
         (snd (duckduckgo_search env_b_down "rust" 3 [])))
  = fst (duckduckgo_search env_b_down "rust" 3 []).
Proof.
  split; [exact stub_provider_deterministic|].
  apply (proj1 (search_twice_same_urls env_b_down "rust" 3 []
                  stub_provider_deterministic)).
Defined.

(** Determinism of the provider is needed: a provider that looks at the
    history answers the second call differently. *)
Example flaky_provider_differs :
  fst (duckduckgo_search env_flaky "rust" 3 []) = Ret [url_a] /\
  fst (duckduckgo_search env_flaky "rust" 3
         (snd (duckduckgo_search env_flaky "rust" 3 []))) = Ret [url_b].
Proof. split; reflexivity. Qed.

(** * Further properties of the two scripts *)

(** ** Cutting and looking up *)

Lemma slice_to_length_min (n : nat) (s : string) :
  String.length (slice_to n s) = Nat.min n (String.length s).
Proof.
  revert s. induction n as [|n IH]; intros [|c s]; simpl; try reflexivity.
  f_equal. apply IH.
Qed.

Lemma comprehension_getitem_ret (key : string) (results : list dict)
    (values : list string) :
  comprehension (getitem key) results = Ret values
  <-> Forall2 (fun r v => r !! key = Some v) results values.
Proof.
  revert values. induction results as [|r rs IH]; intros values; simpl.
  - split.
    + intros H. inversion H. constructor.
    + intros H. inversion H. reflexivity.
  - unfold getitem at 1. destruct (r !! key) as [v|] eqn:Hr.
    + destruct (comprehension (getitem key) rs) as [vs|e] eqn:Hrs.
      * split.
        -- intros H. inversion H; subst. constructor; [exact Hr|].
           apply IH. reflexivity.
        -- intros H. inversion H as [|r' v' rs' vs' Hv Hrest]; subst.
           apply IH in Hrest. inversion Hrest; subst.
           rewrite Hr in Hv. inversion Hv. reflexivity.
      * split; [discriminate|].
        intros H. inversion H as [|r' v' rs' vs' Hv Hrest]; subst.
        apply IH in Hrest. discriminate.
    + split; [discriminate|].
      intros H. inversion H as [|r' v' rs' vs' Hv Hrest]; subst.
      rewrite Hr in Hv. discriminate.
Qed.

Lemma comprehension_getitem_raise (key : string) (results : list dict) (e : exn) :
  comprehension (getitem key) results = Raise e
  <-> e = MkExn KeyError ("'" +:+ key +:+ "'")
      /\ exists r, In r results /\ r !! key = None.
Proof.
  split.
  - induction results as [|r rs IH]; simpl; [discriminate|].
    unfold getitem at 1. destruct (r !! key) as [v|] eqn:Hr.
    + destruct (comprehension (getitem key) rs) as [vs|e'] eqn:Hrs;
        [discriminate|].
      intros H. inversion H; subst.
      destruct (IH eq_refl) as (He & r0 & Hin & Hnone).
      split; [exact He|]. exists r0. split; [right; exact Hin|exact Hnone].
    + intros H. inversion H. split; [reflexivity|].
      exists r. split; [left; reflexivity|exact Hr].
  - intros (-> & Hmissing). apply comprehension_missing_key. exact Hmissing.
Qed.

(** X1: Search succeeds exactly when every result of the provider has an
    ['href'], and then returns these links one per result in the provider's
    order, however many the provider gave; otherwise it raises
    [KeyError('href')]. *)
Theorem search_returns_every_href_in_order (E : Env) (query : string)
    (max_results : Z) (tr : trace) (results : list dict) :
  ddgs_text E tr query max_results = Ret results ->
  (forall urls,
      fst (duckduckgo_search E query max_results tr) = Ret urls
      <-> Forall2 (fun r url => r !! "href" = Some url) results urls)
  /\ (forall urls,
         fst (duckduckgo_search E query max_results tr) = Ret urls ->
         length urls = length results)
  /\ (forall e,
         fst (duckduckgo_search E query max_results tr) = Raise e
         <-> e = MkExn KeyError "'href'"
             /\ exists r, In r results /\ r !! "href" = None).
Proof.
  intros Hprov. rewrite duckduckgo_search_eq, Hprov. simpl.
  split; [|split].
  - intros urls. apply comprehension_getitem_ret.
  - intros urls. apply comprehension_length.
  - intros e. apply (comprehension_getitem_raise "href").
Qed.

Lemma search_returns_every_href_in_order_witness :
  fst (duckduckgo_search env_b_down "rust" 1 []) = Ret [url_a; url_b; url_c]
  /\ length [url_a; url_b; url_c] = length [hit url_a; hit url_b; hit url_c].
Proof.
  destruct (search_returns_every_href_in_order env_b_down "rust" 1 []
              [hit url_a; hit url_b; hit url_c] eq_refl)
    as (Hiff & Hlen & _).
  assert (Hrun : fst (duckduckgo_search env_b_down "rust" 1 [])
                 = Ret [url_a; url_b; url_c]).
  { apply Hiff. repeat constructor. }
  split; [exact Hrun|]. apply Hlen. exact Hrun.
Defined.

(** X2: on a successful fetch the returned text is a prefix of the joined
    paragraph texts, of length the smaller of 2000 and the length of that
    text: a text of at most 2000 characters comes back whole, a longer one
    is cut to exactly 2000. *)
Theorem scraped_text_is_prefix_cut_at_2000 (E : Env) (h : trace) (url : string)
    (texts : list string) :
  fetch_ok E h url texts ->
  exists content rest,
    fst (scrape_page E url h) = Ret content /\
    join nl texts = content +:+ rest /\
    String.length content = Nat.min 2000 (String.length (join nl texts)) /\
    (String.length (join nl texts) <= 2000 -> content = join nl texts /\ rest = "") /\
    (2000 < String.length (join nl texts) -> String.length content = 2000).
Proof.
  intros Hok. rewrite (scrape_page_ok E h url texts Hok). simpl.
  destruct (slice_to_prefix 2000 (join nl texts)) as [rest Hrest].
  exists (slice_to 2000 (join nl texts)), rest.
  split; [reflexivity|]. split; [exact Hrest|].
  split; [apply slice_to_length_min|]. split.
  - intros Hshort. pose proof (slice_to_short 2000 _ Hshort) as Hsame.
    split; [exact Hsame|].
    rewrite Hsame in Hrest.
    assert (Hlen : String.length (join nl texts)
                   = String.length (join nl texts) + String.length rest).
    { rewrite Hrest at 1. clear. induction (join nl texts) as [|c s IH];
        simpl; [reflexivity|]. f_equal. exact IH. }
    destruct rest; [reflexivity|]. simpl in Hlen. lia.
  - intros Hlong. rewrite slice_to_length_min. lia.
Qed.

Lemma scraped_text_is_prefix_cut_at_2000_witness :
  (exists content rest,
      fst (scrape_page env_b_down url_a []) = Ret content /\
      join nl ["alpha"; "beta"] = content +:+ rest /\
      String.length content = Nat.min 2000 (String.length (join nl ["alpha"; "beta"])) /\
      (String.length (join nl ["alpha"; "beta"]) <= 2000 ->
       content = join nl ["alpha"; "beta"] /\ rest = "") /\
      (2000 < String.length (join nl ["alpha"; "beta"]) ->
       String.length content = 2000))
  /\
  (exists content rest,
      fst (scrape_page env_b_down url_c []) = Ret content /\
      join nl [long_text] = content +:+ rest /\
      String.length content = Nat.min 2000 (String.length (join nl [long_text])) /\
      (String.length (join nl [long_text]) <= 2000 ->
       content = join nl [long_text] /\ rest = "") /\
      (2000 < String.length (join nl [long_text]) ->
       String.length content = 2000)).
Proof.
  split.
  - apply (scraped_text_is_prefix_cut_at_2000 env_b_down [] url_a
             ["alpha"; "beta"]).
    fetch_ok_by_eval.
  - apply (scraped_text_is_prefix_cut_at_2000 env_b_down [] url_c [long_text]).
    fetch_ok_by_eval.
Defined.

(** ** What the scripts ask of the outside world *)

Ltac read_trace :=
  unfold requests_of, ddgs_calls_of, search_calls_of, subprocesses_of,
    inputs_of;
  simpl; rewrite ?flat_map_app; simpl; rewrite ?app_nil_r.

(** The entries of the loop hold one request per URL, with timeout 5, and
    no other call to the outside world. *)
Lemma entries_calls (urls : list string) (os : list outcome) :
  length os = length urls ->
  let evs := concat (zip_with entry_events urls os) in
  requests_of evs = map (fun url => (url, 5%Z)) urls /\
  ddgs_calls_of evs = [] /\
  search_calls_of evs = [] /\
  subprocesses_of evs = [] /\
  inputs_of evs = [].
Proof.
  revert os. induction urls as [|url urls IH]; intros [|o os] Hlen;
    try discriminate.
  - simpl. repeat split.
  - simpl in Hlen. injection Hlen as Hlen.
    destruct (IH os Hlen) as (Hreq & Hddgs & Hsearch & Hsub & Hin).
    simpl. unfold requests_of, ddgs_calls_of, search_calls_of,
      subprocesses_of, inputs_of in *.
    rewrite !flat_map_app, Hreq, Hddgs, Hsearch, Hsub, Hin.
    destruct o; simpl; repeat split.
Qed.

(** X3: [scrape_page] sends exactly one request, to the URL it was given
    and with timeout 5, whether the fetch succeeds or fails (a failure is
    not retried); it calls no search provider, runs no subprocess and reads
    no input. *)
Theorem scrape_page_sends_one_request (E : Env) (url : string) (h : trace) :
  requests_of (snd (scrape_page E url h)) = requests_of h ++ [(url, 5%Z)] /\
  ddgs_calls_of (snd (scrape_page E url h)) = ddgs_calls_of h /\
  search_calls_of (snd (scrape_page E url h)) = search_calls_of h /\
  subprocesses_of (snd (scrape_page E url h)) = subprocesses_of h /\
  inputs_of (snd (scrape_page E url h)) = inputs_of h.
Proof.
  destruct (fetch_cases E h url) as [[texts Hok]|[e Hfail]].
  - rewrite (scrape_page_ok E h url texts Hok). read_trace. repeat split.
  - rewrite (scrape_page_fails E h url e Hfail). read_trace. repeat split.
Qed.

(** X4: when the query is read and Search returns [urls], the scrape script
    ends normally after one provider call with limit 3 and one request per
    URL, each with timeout 5, in the order of [urls] (a URL listed twice is
    fetched twice); it reads one input and runs no subprocess. *)
Theorem main_fetches_each_url_once_in_order (E : Env) (tr : trace)
    (query : string) (urls : list string) :
  input E tr prompt = Ret query ->
  fst (duckduckgo_search E query 3 (tr ++ [EInput prompt])) = Ret urls ->
  fst (main E tr) = Ret tt /\
  requests_of (snd (main E tr))
  = requests_of tr ++ map (fun url => (url, 5%Z)) urls /\
  ddgs_calls_of (snd (main E tr)) = ddgs_calls_of tr ++ [(query, 3%Z)] /\
  inputs_of (snd (main E tr)) = inputs_of tr ++ [prompt] /\
  subprocesses_of (snd (main E tr)) = subprocesses_of tr /\
  search_calls_of (snd (main E tr)) = search_calls_of tr.
Proof.
  intros Hin Hsearch. rewrite (main_searched E tr query urls Hin Hsearch).
  destruct (for_each_outcomes E urls
              (tr ++ [EInput prompt; EDdgsText query 3; EPrint (found_line E urls)]))
    as (os & _ & Hlen & ->).
  destruct (entries_calls urls os Hlen) as (Hreq & Hddgs & Hsrch & Hsub & Hinp).
  simpl in Hreq, Hddgs, Hsrch, Hsub, Hinp. simpl fst. simpl snd.
  unfold requests_of, ddgs_calls_of, search_calls_of, subprocesses_of,
    inputs_of in *.
  rewrite !flat_map_app, Hreq, Hddgs, Hsrch, Hsub, Hinp. simpl.
  rewrite ?app_nil_r. repeat split.
Qed.

Lemma main_fetches_each_url_once_in_order_witness :
  fst (main env_b_down []) = Ret tt /\
  requests_of (snd (main env_b_down []))
  = [(url_a, 5%Z); (url_b, 5%Z); (url_c, 5%Z)] /\
  ddgs_calls_of (snd (main env_b_down [])) = [("latest tech news", 3%Z)].
Proof.
  destruct (main_fetches_each_url_once_in_order env_b_down []
              "latest tech news" [url_a; url_b; url_c] eq_refl eq_refl)
    as (Hret & Hreq & Hddgs & _).
  split; [exact Hret|]. split; [exact Hreq|exact Hddgs].
Defined.

(** X5: the outcomes of the fetches fix the run of the loop: if [os] are the
    outcomes the collaborators give for [urls], the loop ends normally with
    exactly the entries of [os] appended, and every PageContent among them
    has at most 2000 characters. *)
Theorem loop_output_fixed_by_outcomes (E : Env) (urls : list string)
    (os : list outcome) (tr : trace) :
  outcomes_at E tr urls os ->
  for_each urls (loop_body E) tr
  = (Ret tt, tr ++ concat (zip_with entry_events urls os)) /\
  length os = length urls /\
  Forall (fun o => String.length (content_of o) <= 2000) os.
Proof.
  revert os tr. induction urls as [|url urls IH]; intros [|o os] tr Hos;
    simpl in Hos; try contradiction.
  - simpl. rewrite app_nil_r. repeat split. constructor.
  - destruct Hos as [Ho Hos].
    destruct (IH os _ Hos) as (Hrun & Hlen & Hall).
    split; [|split].
    + simpl. unfold bind. rewrite (loop_body_outcome E tr url o Ho).
      rewrite Hrun, <- app_assoc. reflexivity.
    + simpl. f_equal. exact Hlen.
    + constructor; [|exact Hall].
      destruct o as [content|e]; simpl.
      * destruct Ho as (texts & _ & ->). apply slice_to_length.
      * lia.
Qed.

Lemma loop_output_fixed_by_outcomes_witness :
  for_each [url_a; url_b] (loop_body env_b_down) []
  = (Ret tt,
     entry_events url_a (Fetched ("alpha" +:+ nl +:+ "beta"))
     ++ entry_events url_b (Failed timed_out)).
Proof.
  refine (proj1 (loop_output_fixed_by_outcomes env_b_down [url_a; url_b]
                   [Fetched ("alpha" +:+ nl +:+ "beta"); Failed timed_out]
                   [] _)).
  simpl. split; [|split; [|exact I]].
  - exists ["alpha"; "beta"]. split; [fetch_ok_by_eval|reflexivity].
  - apply FailGet. reflexivity.
Defined.

Lemma main_input_raises (E : Env) (tr : trace) (e : exn) :
  input E tr prompt = Raise e ->
  main E tr = (Raise e, tr ++ [EInput prompt]).
Proof.
  intros Hin. unfold main. unfold bind at 1. unfold call at 1.
  fold prompt. rewrite Hin. reflexivity.
Qed.

(** X6: when reading the query fails (end of input), the scrape script ends
    with that exception right after the prompt: the provider is not called
    and no page is requested. *)
Theorem main_stops_when_input_fails (E : Env) (tr : trace) (e : exn) :
  input E tr prompt = Raise e ->
  main E tr = (Raise e, tr ++ [EInput prompt]) /\
  ddgs_calls_of (snd (main E tr)) = ddgs_calls_of tr /\
  requests_of (snd (main E tr)) = requests_of tr.
Proof.
  intros Hin. rewrite (main_input_raises E tr e Hin).
  split; [reflexivity|]. read_trace. split; reflexivity.
Qed.

Lemma main_stops_when_input_fails_witness :
  main env_eof [] = (Raise end_of_file, [EInput prompt]).
Proof.
  apply (proj1 (main_stops_when_input_fails env_eof [] end_of_file eq_refl)).
Defined.

(** X7: once the search has given its URLs, the notifier's outcome is the
    outcome of [subprocess.run]: it is called once, after both lines are
    printed, with the three-element argument vector, and what it raises
    (say [notify-send] is missing) is raised by [search_and_notify]. *)
Theorem notifier_outcome_is_the_sink_outcome (E : Env) (tr : trace)
    (query : string) (results : list dict) (urls : list string) :
  search E (tr ++ [EPrint (running_line query)]) query 3 = Ret results ->
  comprehension (getitem "url") results = Ret urls ->
  let before_sink :=
    tr ++ [EPrint (running_line query); ESearch query 3;
           EPrint (found_line E urls)] in
  let argv := ["notify-send"; "TinyLlama"; notify_message query urls] in
  search_and_notify E query tr
  = (subprocess_run E before_sink argv, before_sink ++ [ESubprocessRun argv])
  /\ (forall e,
         subprocess_run E before_sink argv = Raise e ->
         fst (search_and_notify E query tr) = Raise e)
  /\ subprocesses_of (snd (search_and_notify E query tr))
     = subprocesses_of tr ++ [argv].
Proof.
  intros Hsearch Hurls before_sink argv.
  rewrite (search_and_notify_found E tr query results urls Hsearch Hurls).
  fold before_sink. unfold notify_argv. fold argv.
  split; [|split].
  - unfold before_sink. rewrite <- app_assoc. reflexivity.
  - intros e He. simpl. exact He.
  - read_trace. reflexivity.
Qed.

Lemma notifier_outcome_is_the_sink_outcome_witness :
  search_and_notify env_no_sink "rust" []
  = (Raise no_notify_send,
     [EPrint "Running search for: rust"; ESearch "rust" 3;
      EPrint (found_line env_no_sink [url_a; url_b; url_c]);
      ESubprocessRun
        ["notify-send"; "TinyLlama"; "Search done for 'rust', found 3 results."]]).
Proof.
  apply (proj1 (notifier_outcome_is_the_sink_outcome env_no_sink [] "rust"
                  [hit url_a; hit url_b; hit url_c] [url_a; url_b; url_c]
                  eq_refl eq_refl)).
Defined.

(** X8: whatever the collaborators do, the notifier calls the search
    provider exactly once, with limit 3 and the query it was given, runs
    [notify-send] at most once and always as a three-element argument
    vector whose last element is the whole message, and never requests a
    page or reads input. *)
Theorem notifier_calls (E : Env) (query : string) (tr : trace) :
  exists evs,
    snd (search_and_notify E query tr) = tr ++ evs /\
    search_calls_of evs = [(query, 3%Z)] /\
    (subprocesses_of evs = [] \/
     exists urls,
       subprocesses_of evs
       = [["notify-send"; "TinyLlama"; notify_message query urls]]) /\
    requests_of evs = [] /\
    ddgs_calls_of evs = [] /\
    inputs_of evs = [].
Proof.
  destruct (match search E (tr ++ [EPrint (running_line query)]) query 3 with
            | Ret results => comprehension (getitem "url") results
            | Raise e' => Raise e'
            end) as [urls|e] eqn:Hsearch.
  - destruct (search E (tr ++ [EPrint (running_line query)]) query 3)
      as [results|e'] eqn:Hprov; [|discriminate].
    rewrite (search_and_notify_found E tr query results urls Hprov Hsearch).
    eexists. split; [reflexivity|]. read_trace.
    split; [reflexivity|]. split; [right; exists urls; reflexivity|].
    repeat split.
  - rewrite (search_and_notify_raises E tr query e Hsearch).
    eexists. split; [reflexivity|]. read_trace.
    split; [reflexivity|]. split; [left; reflexivity|]. repeat split.
Qed.

(** In the entries of the loop, what comes before a request holds no
    provider call and no input, and the request has timeout 5. *)
Lemma entries_before_request (urls : list string) (os : list outcome)
    (pre post : trace) (url : string) (timeout : Z) :
  length os = length urls ->
  concat (zip_with entry_events urls os) = pre ++ ERequestsGet url timeout :: post ->
  ddgs_calls_of pre = [] /\ inputs_of pre = [] /\ timeout = 5%Z.
Proof.
  intros Hlen Hsplit.
  destruct (entries_calls urls os Hlen) as (Hreq & Hddgs & _ & _ & Hinp).
  simpl in Hreq, Hddgs, Hinp. rewrite Hsplit in Hreq, Hddgs, Hinp.
  unfold requests_of, ddgs_calls_of, inputs_of in *.
  rewrite flat_map_app in Hreq, Hddgs, Hinp. simpl in Hreq.
  apply List.app_eq_nil in Hddgs. apply List.app_eq_nil in Hinp.
  split; [exact (proj1 Hddgs)|]. split; [exact (proj1 Hinp)|].
  assert (Hin : In (url, timeout) (map (fun u => (u, 5%Z)) urls)).
  { rewrite <- Hreq. apply List.in_or_app. right. left. reflexivity. }
  apply List.in_map_iff in Hin. destruct Hin as (u & Hu & _).
  inversion Hu. reflexivity.
Qed.

(** X9: whatever the collaborators do, the scrape script prompts once, calls
    the provider at most once and only with limit 3, requests pages only
    with timeout 5, and never runs a subprocess; every request comes after
    the prompt and after the one provider call. *)
Theorem main_calls (E : Env) (tr : trace) :
  exists evs,
    snd (main E tr) = tr ++ evs /\
    inputs_of evs = [prompt] /\
    length (ddgs_calls_of evs) <= 1 /\
    Forall (fun c => snd c = 3%Z) (ddgs_calls_of evs) /\
    Forall (fun r => snd r = 5%Z) (requests_of evs) /\
    (ddgs_calls_of evs = [] -> requests_of evs = []) /\
    subprocesses_of evs = [] /\
    search_calls_of evs = [] /\
    (forall (pre post : trace) (url : string) (timeout : Z),
        evs = pre ++ ERequestsGet url timeout :: post ->
        timeout = 5%Z /\
        inputs_of pre = [prompt] /\
        exists query, ddgs_calls_of pre = [(query, 3%Z)]).
Proof.
  destruct (input E tr prompt) as [query|e] eqn:Hin.
  - destruct (fst (duckduckgo_search E query 3 (tr ++ [EInput prompt])))
      as [urls|e] eqn:Hsearch.
    + rewrite (main_searched E tr query urls Hin Hsearch).
      destruct (for_each_outcomes E urls
                  (tr ++ [EInput prompt; EDdgsText query 3;
                          EPrint (found_line E urls)]))
        as (os & _ & Hlen & ->).
      destruct (entries_calls urls os Hlen)
        as (Hreq & Hddgs & Hsrch & Hsub & Hinp).
      simpl in Hreq, Hddgs, Hsrch, Hsub, Hinp.
      exists ([EInput prompt; EDdgsText query 3; EPrint (found_line E urls)]
              ++ concat (zip_with entry_events urls os)).
      split; [simpl; rewrite <- app_assoc; reflexivity|].
      assert (Horder : forall (pre post : trace) (url : string) (timeout : Z),
                 [EInput prompt; EDdgsText query 3; EPrint (found_line E urls)]
                 ++ concat (zip_with entry_events urls os)
                 = pre ++ ERequestsGet url timeout :: post ->
                 timeout = 5%Z /\
                 inputs_of pre = [prompt] /\
                 exists q, ddgs_calls_of pre = [(q, 3%Z)]).
      { intros pre post url timeout Hsplit.
        destruct pre as [|a [|b [|c pre']]]; simpl in Hsplit;
          try discriminate Hsplit.
        injection Hsplit as <- <- <- Hrest.
        destruct (entries_before_request urls os pre' post url timeout Hlen Hrest)
          as (Hd & Hi & Ht).
        split; [exact Ht|].
        unfold inputs_of, ddgs_calls_of in *. simpl. rewrite Hd, Hi.
        split; [reflexivity|]. exists query. reflexivity. }
      unfold requests_of, ddgs_calls_of, search_calls_of, subprocesses_of,
        inputs_of in *.
      rewrite !flat_map_app, Hreq, Hddgs, Hsrch, Hsub, Hinp. simpl.
      split; [reflexivity|]. split; [lia|].
      split; [repeat constructor|].
      split; [clear; induction urls as [|url urls IH]; simpl;
              constructor; [reflexivity|exact IH]|].
      split; [discriminate|]. split; [reflexivity|].
      split; [reflexivity|exact Horder].
    + rewrite (main_search_raises E tr query e Hin Hsearch).
      eexists. split; [reflexivity|]. read_trace.
      split; [reflexivity|]. split; [lia|].
      split; [repeat constructor|]. split; [constructor|].
      split; [discriminate|]. split; [reflexivity|]. split; [reflexivity|].
      intros pre post url timeout Hsplit.
      destruct pre as [|a [|b [|c pre']]]; simpl in Hsplit;
        discriminate Hsplit.
  - rewrite (main_input_raises E tr e Hin).
    eexists. split; [reflexivity|]. read_trace.
    split; [reflexivity|]. split; [lia|].
    split; [constructor|]. split; [constructor|].
    split; [reflexivity|]. split; [reflexivity|]. split; [reflexivity|].
    intros pre post url timeout Hsplit.
    destruct pre as [|a [|b pre']]; simpl in Hsplit; discriminate Hsplit.
Qed.

Lemma main_calls_witness :
  exists evs,
    snd (main env_b_down []) = [] ++ evs /\
    requests_of evs = [(url_a, 5%Z); (url_b, 5%Z); (url_c, 5%Z)] /\
    (forall (pre post : trace) (url : string) (timeout : Z),
        evs = pre ++ ERequestsGet url timeout :: post ->
        timeout = 5%Z /\
        inputs_of pre = [prompt] /\
        exists query, ddgs_calls_of pre = [(query, 3%Z)]).
Proof.
  destruct (main_calls env_b_down [])
    as (evs & Hevs & _ & _ & _ & _ & _ & _ & _ & Horder).
  exists evs. split; [exact Hevs|]. split; [|exact Horder].
  simpl in Hevs. rewrite <- Hevs. reflexivity.
Defined.
